(** * random.cpp: the randomness subsystem

    A shallow embedding of [src/random.cpp] and the properties of its
    operations: the OS entropy read, the OpenSSL facade, the strong byte
    generator, the bounded uniform generator and the seeding of
    [FastRandomContext].

    The program talks to the operating system and to OpenSSL.  Every
    external call is answered by an environment [Env], a function of the
    history of calls made so far, and is recorded in a trace of events.
    A C function [f] becomes a computation in the monad [M]: it takes the
    world, and either returns, or ends the process ([abort], a failed
    [assert]), or has undefined behaviour, or is still inside a loop when
    its fuel, a bound on the iterations of each loop, runs out. *)

From Stdlib Require Import Strings.String Strings.Byte.
From Stdlib Require Import ZArith List Bool Lia QArith Permutation.
Import ListNotations.

Local Open Scope Z_scope.

(** ** Bytes and machine integers *)

Definition byte_to_Z (b : byte) : Z := Z.of_N (Byte.to_N b).

Definition byte_of_Z (z : Z) : byte :=
  match Byte.of_N (Z.to_N (z mod 256)) with
  | Some b => b
  | None => Byte.x00
  end.

(** The value of an unsigned integer object whose bytes, in increasing
    address order, are [bs]. *)
Fixpoint le_decode (bs : list byte) : Z :=
  match bs with
  | [] => 0
  | b :: rest => byte_to_Z b + 256 * le_decode rest
  end.

(** The [n] bytes of the object representation of [z], lowest address
    first. *)
Fixpoint le_encode (n : nat) (z : Z) : list byte :=
  match n with
  | O => []
  | S n' => byte_of_Z z :: le_encode n' (z / 256)
  end.

Definition UINT64_MAX : Z := 2 ^ 64 - 1.

(** Conversions between integer types: to an unsigned type the value is
    taken modulo [2^w]; to a signed type it wraps in two's complement. *)
Definition to_uint (w : Z) (z : Z) : Z := z mod 2 ^ w.
Definition to_sint (w : Z) (z : Z) : Z :=
  (z + 2 ^ (w - 1)) mod 2 ^ w - 2 ^ (w - 1).

Definition to_uint64 := to_uint 64.
Definition to_uint32 := to_uint 32.
Definition to_int64 := to_sint 64.
Definition to_int := to_sint 32.

(** [n] bytes of a byte source. *)
Definition take_bytes (src : nat -> byte) (n : nat) : list byte :=
  map src (seq 0 n).

(** Storing [data] at offset [off] of the memory [buf]. *)
Definition write_at (buf : list byte) (off : nat) (data : list byte) : list byte :=
  firstn off buf ++ data ++ skipn (off + length data) buf.

(** Modelled from the spec: [memory_cleanse] of support/cleanse.h is not
    among the sources; the spec describes it as the primitive that
    overwrites a buffer's bytes with zero and is not optimised away. *)
Definition memory_cleanse (buf : list byte) (len : nat) : list byte :=
  write_at buf 0 (repeat Byte.x00 len).

(** ** The environment and the world *)

Inductive Event : Type :=
| EvLogPrintf (msg : String.string)
| EvLogPrint (category msg : String.string)
| EvAbort
| EvGettimeofday (tv_sec tv_usec : Z)
| EvQueryPerformanceCounter (counter : Z)
| EvRAND_add (data : list byte) (entropy : Q)
| EvRAND_bytes (num ret : Z) (data : list byte)
| EvGetTime (t : Z)
| EvRegQueryValueExA (bufsize ret nSize : Z)
| EvRegCloseKey
| EvCryptAcquireContextW (ret : Z)
| EvCryptGenRandom (ret : Z) (data : list byte)
| EvCryptReleaseContext
| EvOpen (fd : Z)
| EvRead (fd count n : Z) (data : list byte)
| EvClose (fd : Z).

Definition History := list Event.

(** The answers of the platform, each a function of the calls made so
    far.  [WIN32] is the preprocessor symbol of the source; [big_endian]
    is the byte order of the machine, which decides the value an integer
    object takes when its bytes are overwritten through a [uint8_t*];
    [uninit] gives the indeterminate bytes of an automatic object that was
    declared without an initialiser. *)
Record Env : Type := {
  WIN32 : bool;
  big_endian : bool;
  uninit : History -> nat -> byte;
  gettimeofday : History -> Z * Z;
  QueryPerformanceCounter : History -> Z;
  GetTime : History -> Z;
  RegQueryValueExA : History -> Z -> Z * Z * (nat -> byte);
  CryptAcquireContextW : History -> Z;
  CryptGenRandom : History -> Z * (nat -> byte);
  open_urandom : History -> Z;
  read : History -> Z -> Z -> Z * (nat -> byte);
  RAND_bytes : History -> Z -> Z * (nat -> byte)
}.

(** The mutable state of the process: the trace of external calls and the
    two function-local statics of [RandAddSeedPerfmon]. *)
Record World : Type := {
  trace : History;
  nLastPerfmon : Z;
  warned : bool
}.

Definition emit (e : Event) (w : World) : World :=
  {| trace := trace w ++ [e];
     nLastPerfmon := nLastPerfmon w; warned := warned w |}.

Definition set_nLastPerfmon (t : Z) (w : World) : World :=
  {| trace := trace w; nLastPerfmon := t; warned := warned w |}.

Definition set_warned (b : bool) (w : World) : World :=
  {| trace := trace w; nLastPerfmon := nLastPerfmon w; warned := b |}.

(** How a call ends: it returns a value, the process is ended by
    [abort()] or by a failed [assert], the behaviour is undefined from
    world [w] on, or the call is still inside a loop, in world [w], when
    the fuel (a bound on the iterations of each loop) is used up. *)
Inductive outcome (A : Type) : Type :=
| Returned (a : A) (w : World)
| Aborted (w : World)
| AssertFailed (w : World)
| Undefined (w : World)
| OutOfFuel (w : World).

Arguments Returned {A} a w.
Arguments Aborted {A} w.
Arguments AssertFailed {A} w.
Arguments Undefined {A} w.
Arguments OutOfFuel {A} w.

Definition M (A : Type) : Type := World -> outcome A.

Definition ret {A} (a : A) : M A := fun w => Returned a w.

Definition bind {A B} (c : M A) (k : A -> M B) : M B :=
  fun w =>
    match c w with
    | Returned a w' => k a w'
    | Aborted w' => Aborted w'
    | AssertFailed w' => AssertFailed w'
    | Undefined w' => Undefined w'
    | OutOfFuel w' => OutOfFuel w'
    end.

Declare Scope prog_scope.
Delimit Scope prog_scope with prog.
Notation "x <- c ;; k" := (bind c (fun x => k))
  (at level 100, c at next level, right associativity) : prog_scope.
Notation "' pat <- c ;; k" := (bind c (fun x => match x with pat => k end))
  (at level 100, pat pattern, c at next level, right associativity) : prog_scope.
Notation "c ;;; k" := (bind c (fun _ => k))
  (at level 100, right associativity) : prog_scope.
Local Open Scope prog_scope.

Definition log (e : Event) : M unit := fun w => Returned tt (emit e w).
Definition abort : M unit := fun w => Aborted (emit EvAbort w).
Definition assert (b : bool) : M unit :=
  fun w => if b then Returned tt w else AssertFailed w.
Definition undefined {A} : M A := fun w => Undefined w.
Definition out_of_fuel {A} : M A := fun w => OutOfFuel w.

(** [ssize_t] is the signed 64-bit type; the sum of two of its values is
    undefined when it is outside the type.  (Operands that are not values
    of the type, which no call can return, are added as integers.) *)
Definition SSIZE_MAX : Z := 2 ^ 63 - 1.
Definition SSIZE_MIN : Z := - 2 ^ 63.

Definition in_ssize (z : Z) : bool := (SSIZE_MIN <=? z) && (z <=? SSIZE_MAX).

Definition ssize_add (a b : Z) : M Z :=
  if in_ssize a && in_ssize b && negb (in_ssize (a + b))
  then undefined
  else ret (a + b).

(** [do { s = body(s); } while (cond(s));] *)
Fixpoint do_while {St : Type} (fuel : nat) (body : St -> M St) (cond : St -> bool)
    (s : St) : M St :=
  match fuel with
  | O => out_of_fuel
  | S fuel' =>
      s' <- body s ;;
      if cond s' then do_while fuel' body cond s' else ret s'
  end.

(** The call came to an end: the outcome is not that of a loop that used
    up its fuel. *)
Definition finished {A : Type} (o : outcome A) : Prop :=
  match o with
  | OutOfFuel _ => False
  | _ => True
  end.

(** [std::vector<uint8_t>]: its size and the byte at each index. *)
Record vector : Type := {
  vsize : Z;
  vdata : nat -> byte
}.

Definition vector_fill (n : Z) (b : byte) : vector :=
  {| vsize := n; vdata := fun _ => b |}.

Definition resize (v : vector) (n : Z) : vector :=
  {| vsize := n;
     vdata := fun i => if Z.of_nat i <? vsize v then vdata v i else Byte.x00 |}.

Definition vector_store (v : vector) (len : Z) (src : nat -> byte) : vector :=
  {| vsize := vsize v;
     vdata := fun i => if Z.of_nat i <? len then src i else vdata v i |}.

(** Modelled from the spec: the class [CSHA512] of crypto/sha512.h is not
    among the sources.  The spec has the strong generator compute a
    512-bit cryptographic hash over the concatenation of what was written:
    a hasher is the message written so far, and [Finalize] is the hash
    function [SHA512], a parameter, applied to it. *)
Record CSHA512 : Type := { message : list byte }.

Definition CSHA512_init : CSHA512 := {| message := [] |}.

Definition Write (h : CSHA512) (data : list byte) : CSHA512 :=
  {| message := message h ++ data |}.

Definition Finalize (SHA512 : list byte -> list byte) (h : CSHA512) : list byte :=
  SHA512 (message h).

(** Windows status codes of winerror.h. *)
Definition ERROR_SUCCESS : Z := 0.
Definition ERROR_MORE_DATA : Z := 234.

(** The state of [FastRandomContext]: two 32-bit lanes. *)
Record FastRandomContext : Type := {
  Rz : Z;
  Rw : Z
}.

(** ** The program *)

Section Program.

Variable E : Env.
Variable SHA512 : list byte -> list byte.

(** The value of an unsigned object of the machine whose bytes are [bs],
    and the [n] bytes of an object holding [z]. *)
Definition decode (bs : list byte) : Z :=
  if big_endian E then le_decode (rev bs) else le_decode bs.

Definition encode (n : nat) (z : Z) : list byte :=
  if big_endian E then rev (le_encode n z) else le_encode n z.

(** An automatic array of [n] bytes declared without initialiser. *)
Definition uninitialized (n : nat) : M (list byte) :=
  fun w => Returned (take_bytes (uninit E (trace w)) n) w.

(** [memcpy(dst, src, n)], [n] a [size_t]: undefined when either object
    is shorter than [n]. *)
Definition memcpy (dst src : list byte) (n : Z) : M (list byte) :=
  if (n <=? Z.of_nat (length src)) && (n <=? Z.of_nat (length dst))
  then ret (write_at dst 0 (firstn (Z.to_nat n) src))
  else undefined.

(** *** External calls *)

Definition LogPrintf (msg : String.string) : M unit := log (EvLogPrintf msg).
Definition LogPrint (category msg : String.string) : M unit :=
  log (EvLogPrint category msg).

Arguments LogPrintf msg%_string.
Arguments LogPrint (category msg)%_string.

Definition RAND_add (data : list byte) (entropy : Q) : M unit :=
  log (EvRAND_add data entropy).

(** [RAND_bytes(buf, num)]: the status and the buffer after the call. *)
Definition call_RAND_bytes (buf : list byte) (num : Z) : M (Z * list byte) :=
  fun w =>
    let '(r, src) := RAND_bytes E (trace w) num in
    let data := take_bytes src (Z.to_nat num) in
    Returned (r, write_at buf 0 data) (emit (EvRAND_bytes num r data) w).

Definition call_open : M Z :=
  fun w =>
    let fd := open_urandom E (trace w) in
    Returned fd (emit (EvOpen fd) w).

(** [read(fd, buf + off, count)]: the result and the buffer after the
    call; a positive result [n] is the number of bytes stored. *)
Definition call_read (fd : Z) (buf : list byte) (off : Z) (count : Z)
    : M (Z * list byte) :=
  fun w =>
    let '(n, src) := read E (trace w) fd count in
    let data := take_bytes src (Z.to_nat n) in
    Returned (n, write_at buf (Z.to_nat off) data) (emit (EvRead fd count n data) w).

Definition call_close (fd : Z) : M unit := log (EvClose fd).

Definition call_gettimeofday : M (Z * Z) :=
  fun w =>
    let '(sec, usec) := gettimeofday E (trace w) in
    Returned (sec, usec) (emit (EvGettimeofday sec usec) w).

Definition call_QueryPerformanceCounter : M Z :=
  fun w =>
    let c := QueryPerformanceCounter E (trace w) in
    Returned c (emit (EvQueryPerformanceCounter c) w).

Definition call_GetTime : M Z :=
  fun w =>
    let t := GetTime E (trace w) in
    Returned t (emit (EvGetTime t) w).

(** [RegQueryValueExA(HKEY_PERFORMANCE_DATA, "Global", ..., vData.data(),
    &nSize)]: the status, the size reported back in [nSize] and the
    buffer after the call. *)
Definition call_RegQueryValueExA (vData : vector) (nSize : Z)
    : M (Z * Z * vector) :=
  fun w =>
    let '(r, n, src) := RegQueryValueExA E (trace w) nSize in
    Returned (r, to_uint32 n, vector_store vData (Z.min (to_uint32 n) nSize) src)
             (emit (EvRegQueryValueExA nSize r (to_uint32 n)) w).

Definition call_RegCloseKey : M unit := log EvRegCloseKey.

Definition call_CryptAcquireContextW : M Z :=
  fun w =>
    let r := CryptAcquireContextW E (trace w) in
    Returned r (emit (EvCryptAcquireContextW r) w).

(** [CryptGenRandom(hProvider, 32, ent32)]. *)
Definition call_CryptGenRandom (buf : list byte) (len : nat) : M (Z * list byte) :=
  fun w =>
    let '(r, src) := CryptGenRandom E (trace w) in
    let data := take_bytes src len in
    Returned (r, if r =? 0 then buf else write_at buf 0 data)
             (emit (EvCryptGenRandom r (if r =? 0 then [] else data)) w).

Definition call_CryptReleaseContext : M unit := log EvCryptReleaseContext.

(** *** random.cpp *)

Definition RandFailure : M unit :=
  LogPrintf "Failed to read randomness, aborting" ;;;
  abort.

Definition GetPerformanceCounter : M Z :=
  let nCounter := 0 in
  if WIN32 E then
    c <- call_QueryPerformanceCounter ;;
    ret (to_int64 c)
  else
    '(tv_sec, tv_usec) <- call_gettimeofday ;;
    ret (to_int64 (tv_sec * 1000000 + tv_usec)).

(** The result is the content of the local [nCounter] when the function
    returns (the C function returns nothing). *)
Definition RandAddSeed : M (list byte) :=
  c <- GetPerformanceCounter ;;
  let nCounter := encode 8 c in
  RAND_add nCounter (3 # 2) ;;;
  let nCounter := memory_cleanse nCounter 8 in
  ret nCounter.

Definition nMaxSize : Z := 10000000.

(** The [while (true)] loop of [RandAddSeedPerfmon]; its state is
    [vData], [ret] and [nSize]. *)
Fixpoint RandAddSeedPerfmon_loop (fuel : nat) (vData : vector)
    : M (vector * Z * Z) :=
  match fuel with
  | O => out_of_fuel
  | S fuel' =>
      let nSize := to_uint32 (vsize vData) in
      '(r, nSize, vData) <- call_RegQueryValueExA vData nSize ;;
      if negb (r =? ERROR_MORE_DATA) || (vsize vData >=? nMaxSize)
      then ret (vData, r, nSize)
      else RandAddSeedPerfmon_loop fuel'
             (resize vData (Z.max ((vsize vData * 3) / 2) nMaxSize))
  end.

Definition RandAddSeedPerfmon (fuel : nat) : M unit :=
  RandAddSeed ;;;
  if WIN32 E then
    t <- call_GetTime ;;
    last <- (fun w => Returned (nLastPerfmon w) w) ;;
    if t <? last + 10 * 60 then ret tt
    else
      t <- call_GetTime ;;
      (fun w => Returned tt (set_nLastPerfmon t w)) ;;;
      let vData := vector_fill 250000 Byte.x00 in
      '(vData, r, nSize) <- RandAddSeedPerfmon_loop fuel vData ;;
      call_RegCloseKey ;;;
      if r =? ERROR_SUCCESS then
        RAND_add (take_bytes (vdata vData) (Z.to_nat nSize)) (nSize # 100) ;;;
        let vData := vector_store vData nSize (fun _ => Byte.x00) in
        LogPrint "rand" "%s: %lu bytes"
      else
        already <- (fun w => Returned (warned w) w) ;;
        if negb already then
          LogPrintf "%s: Warning: RegQueryValueExA(HKEY_PERFORMANCE_DATA) failed with code %i" ;;;
          (fun w => Returned tt (set_warned true w))
        else ret tt
  else ret tt.

(** The body of the partial-read loop of [GetOSRand]; the loop state is
    the buffer and [have].  In [n <= 0 || n + have > 32] the sum is
    computed in [ssize_t], and only when [n] is positive. *)
Definition GetOSRand_body (f : Z) (s : list byte * Z) : M (list byte * Z) :=
  let '(ent32, have) := s in
  '(n, ent32) <- call_read f ent32 have (to_uint64 (32 - have)) ;;
  fatal <- (if n <=? 0 then ret true
            else sum <- ssize_add n have ;; ret (sum >? 32)) ;;
  (if fatal then RandFailure else ret tt) ;;;
  let have := to_int (have + n) in
  ret (ent32, have).

(** Get 32 bytes of system entropy.  The result is the memory [ent32]
    points to after the call. *)
Definition GetOSRand (fuel : nat) (ent32 : list byte) : M (list byte) :=
  if WIN32 E then
    r <- call_CryptAcquireContextW ;;
    (if r =? 0 then RandFailure else ret tt) ;;;
    '(r, ent32) <- call_CryptGenRandom ent32 32 ;;
    (if r =? 0 then RandFailure else ret tt) ;;;
    call_CryptReleaseContext ;;;
    ret ent32
  else
    f <- call_open ;;
    (if f =? -1 then RandFailure else ret tt) ;;;
    let have := 0 in
    '(ent32, have) <- do_while fuel (GetOSRand_body f)
                        (fun s => snd s <? 32) (ent32, have) ;;
    call_close f ;;;
    ret ent32.

(** The result is the memory [buf] points to after the call. *)
Definition GetRandBytes (buf : list byte) (num : Z) : M (list byte) :=
  '(r, buf) <- call_RAND_bytes buf num ;;
  (if negb (r =? 1) then RandFailure else ret tt) ;;;
  ret buf.

(** The result is the memory [out] points to after the call, and the
    content of the local [buf] when the function returns. *)
Definition GetStrongRandBytes (fuel : nat) (out : list byte) (num : Z)
    : M (list byte * list byte) :=
  assert (num <=? 32) ;;;
  let hasher := CSHA512_init in
  buf <- uninitialized 64 ;;
  (* First source: OpenSSL's RNG *)
  RandAddSeedPerfmon fuel ;;;
  buf <- GetRandBytes buf 32 ;;
  let hasher := Write hasher (firstn 32 buf) in
  (* Second source: OS RNG *)
  buf <- GetOSRand fuel buf ;;
  let hasher := Write hasher (firstn 32 buf) in
  (* Produce output *)
  let buf := write_at buf 0 (Finalize SHA512 hasher) in
  out <- memcpy out buf (to_uint64 num) ;;
  let buf := memory_cleanse buf 64 in
  ret (out, buf).

(** The range of accepted draws of [GetRand]. *)
Definition nRange (nMax : Z) : Z :=
  to_uint64 (to_uint64 (UINT64_MAX / nMax) * nMax).

Definition GetRand (fuel : nat) (nMax : Z) : M Z :=
  if nMax =? 0 then ret 0
  else
    let nRange := nRange nMax in
    let nRand := encode 8 0 in
    nRand <- do_while fuel (fun nRand => GetRandBytes nRand 8)
               (fun nRand => decode nRand >=? nRange) nRand ;;
    ret (decode nRand mod nMax).

Definition GetRandInt (fuel : nat) (nMax : Z) : M Z :=
  r <- GetRand fuel (to_uint64 nMax) ;;
  ret (to_int r).

(** [FastRandomContext::FastRandomContext(bool fDeterministic)] *)
Definition FastRandomContext_ctor (fuel : nat) (fDeterministic : bool)
    : M FastRandomContext :=
  if fDeterministic then
    ret {| Rz := 11; Rw := 11 |}
  else
    tmp <- uninitialized 4 ;;
    tmp <- do_while fuel (fun tmp => GetRandBytes tmp 4)
             (fun tmp => (decode tmp =? 0) || (decode tmp =? 0x9068ffff)) tmp ;;
    let Rz := decode tmp in
    tmp <- do_while fuel (fun tmp => GetRandBytes tmp 4)
             (fun tmp => (decode tmp =? 0) || (decode tmp =? 0x464fffff)) tmp ;;
    let Rw := decode tmp in
    ret {| Rz := Rz; Rw := Rw |}.

End Program.

Arguments LogPrintf msg%_string.
Arguments LogPrint (category msg)%_string.


(** The events of successful [RAND_bytes] calls that produced the byte
    strings [draws], one after the other. *)
Definition draw_events (num : Z) (draws : list (list byte)) : History :=
  map (fun d => EvRAND_bytes num 1 d) draws.

(** The world after the events [evs] were added to the trace. *)
Definition emits (evs : History) (w : World) : World :=
  {| trace := trace w ++ evs;
     nLastPerfmon := nLastPerfmon w; warned := warned w |}.

Definition RandFailure_events : History :=
  [EvLogPrintf "Failed to read randomness, aborting"; EvAbort].

(** The events of successive reads from [fd] that stored the byte strings
    [chunks], the first of them made when [have] bytes were there. *)
Fixpoint read_events (fd have : Z) (chunks : list (list byte)) : History :=
  match chunks with
  | [] => []
  | c :: rest =>
      EvRead fd (32 - have) (Z.of_nat (length c)) c
      :: read_events fd (have + Z.of_nat (length c)) rest
  end.

(** The byte strings [draws] are what [RAND_bytes E] answers, each time
    with status 1, to successive calls for [num] bytes made from the
    history [h] on. *)
Inductive draws_from (E : Env) (num : Z) : History -> list (list byte) -> Prop :=
| draws_none (h : History) : draws_from E num h []
| draws_next (h : History) (d : list byte) (rest : list (list byte)) :
    fst (RAND_bytes E h num) = 1 ->
    d = take_bytes (snd (RAND_bytes E h num)) (Z.to_nat num) ->
    draws_from E num (h ++ [EvRAND_bytes num 1 d]) rest ->
    draws_from E num h (d :: rest).

(** How the partial-read loop ends: all 32 bytes are there, or a read
    was fatal, or the sum in the test of a read overflowed. *)
Inductive loop_end : Type :=
| LoopDone
| LoopFailed (e : Event)
| LoopOverflowed (e : Event).

(** The partial-read loop on the answers of [read E]: from the history
    [h] with [have] bytes in place, the reads that were accepted stored
    [chunks], and then the loop ended. *)
Inductive urandom_loop (E : Env) (fd : Z)
    : History -> Z -> list (list byte) -> loop_end -> Prop :=
| loop_done (h : History) : urandom_loop E fd h 32 [] LoopDone
| loop_read (h : History) (have n : Z) (c : list byte)
            (chunks : list (list byte)) (e : loop_end) :
    0 <= have < 32 ->
    n = fst (read E h fd (32 - have)) ->
    c = take_bytes (snd (read E h fd (32 - have))) (Z.to_nat n) ->
    0 < n -> n + have <= 32 ->
    urandom_loop E fd (h ++ [EvRead fd (32 - have) n c]) (have + n) chunks e ->
    urandom_loop E fd h have (c :: chunks) e
| loop_failed (h : History) (have n : Z) (c : list byte) :
    0 <= have < 32 ->
    n = fst (read E h fd (32 - have)) ->
    c = take_bytes (snd (read E h fd (32 - have))) (Z.to_nat n) ->
    n <= 0 \/ (32 < n + have /\ (n + have <= SSIZE_MAX \/ SSIZE_MAX < n)) ->
    urandom_loop E fd h have [] (LoopFailed (EvRead fd (32 - have) n c))
| loop_overflowed (h : History) (have n : Z) (c : list byte) :
    0 <= have < 32 ->
    n = fst (read E h fd (32 - have)) ->
    c = take_bytes (snd (read E h fd (32 - have))) (Z.to_nat n) ->
    0 < n <= SSIZE_MAX -> SSIZE_MAX < n + have ->
    urandom_loop E fd h have [] (LoopOverflowed (EvRead fd (32 - have) n c)).

(** The calls of a [GetOSRand] that returns when called in the history
    [h], as [E] answers them, and the bytes they stored. *)
Inductive GetOSRand_success (E : Env) (h : History) : History -> list byte -> Prop :=
| success_urandom (fd : Z) (chunks : list (list byte)) :
    WIN32 E = false ->
    fd = open_urandom E h -> fd <> -1 ->
    urandom_loop E fd (h ++ [EvOpen fd]) 0 chunks LoopDone ->
    GetOSRand_success E h ([EvOpen fd] ++ read_events fd 0 chunks ++ [EvClose fd])
                      (concat chunks)
| success_CryptGenRandom (r1 r2 : Z) (data : list byte) :
    WIN32 E = true ->
    r1 = CryptAcquireContextW E h -> r1 <> 0 ->
    r2 = fst (CryptGenRandom E (h ++ [EvCryptAcquireContextW r1])) -> r2 <> 0 ->
    data = take_bytes (snd (CryptGenRandom E (h ++ [EvCryptAcquireContextW r1]))) 32 ->
    GetOSRand_success E h [EvCryptAcquireContextW r1; EvCryptGenRandom r2 data;
                           EvCryptReleaseContext] data.

(** The calls of a [GetOSRand] up to the one whose answer is fatal. *)
Inductive GetOSRand_failure (E : Env) (h : History) : History -> Prop :=
| failure_open :
    WIN32 E = false ->
    open_urandom E h = -1 ->
    GetOSRand_failure E h [EvOpen (-1)]
| failure_read (fd : Z) (chunks : list (list byte)) (e : Event) :
    WIN32 E = false ->
    fd = open_urandom E h -> fd <> -1 ->
    urandom_loop E fd (h ++ [EvOpen fd]) 0 chunks (LoopFailed e) ->
    GetOSRand_failure E h ([EvOpen fd] ++ read_events fd 0 chunks ++ [e])
| failure_CryptAcquireContextW :
    WIN32 E = true ->
    CryptAcquireContextW E h = 0 ->
    GetOSRand_failure E h [EvCryptAcquireContextW 0]
| failure_CryptGenRandom (r1 : Z) :
    WIN32 E = true ->
    r1 = CryptAcquireContextW E h -> r1 <> 0 ->
    fst (CryptGenRandom E (h ++ [EvCryptAcquireContextW r1])) = 0 ->
    GetOSRand_failure E h [EvCryptAcquireContextW r1; EvCryptGenRandom 0 []].

(** The calls of a [GetOSRand] up to a read whose answer [n] makes the
    sum [n + have] overflow [ssize_t]. *)
Inductive GetOSRand_overflow (E : Env) (h : History) : History -> Prop :=
| overflow_read (fd : Z) (chunks : list (list byte)) (e : Event) :
    WIN32 E = false ->
    fd = open_urandom E h -> fd <> -1 ->
    urandom_loop E fd (h ++ [EvOpen fd]) 0 chunks (LoopOverflowed e) ->
    GetOSRand_overflow E h ([EvOpen fd] ++ read_events fd 0 chunks ++ [e]).

(** The two calls of [RandAddSeed] when the history is [h]: the counter
    is read and its eight bytes are fed to the pool with weight 1.5. *)
Definition timing_feed (E : Env) (h : History) : History :=
  if WIN32 E then
    let c := QueryPerformanceCounter E h in
    [EvQueryPerformanceCounter c; EvRAND_add (encode E 8 (to_int64 c)) (3 # 2)]
  else
    let '(sec, usec) := gettimeofday E h in
    [EvGettimeofday sec usec;
     EvRAND_add (encode E 8 (to_int64 (sec * 1000000 + usec))) (3 # 2)].

(** The calls the rest of [RandAddSeedPerfmon] can make. *)
Definition perfmon_event (e : Event) : bool :=
  match e with
  | EvGetTime _ | EvRegQueryValueExA _ _ _ | EvRegCloseKey
  | EvRAND_add _ _ | EvLogPrint _ _ | EvLogPrintf _ => true
  | _ => false
  end.

Definition INT_MAX : Z := 2 ^ 31 - 1.
Definition INT_MIN : Z := - 2 ^ 31.

(** A sequence of calls of methods of a [FastRandomContext]: every method
    is a function of the state that gives an output and the next state.
    The methods themselves are declared in random.h; the sequence is run
    for any of them. *)
Fixpoint run_calls {Out : Type}
    (calls : list (FastRandomContext -> Out * FastRandomContext))
    (ctx : FastRandomContext) : list Out :=
  match calls with
  | [] => []
  | m :: rest => fst (m ctx) :: run_calls rest (snd (m ctx))
  end.

(** The constructor once more, giving beside the object constructed the
    content of the local [tmp] at the time it returns (no bytes in
    deterministic mode, where [tmp] is not declared). *)
Definition FastRandomContext_ctor_locals (E : Env) (fuel : nat) (fDeterministic : bool)
    : M (FastRandomContext * list byte) :=
  if fDeterministic then
    ret ({| Rz := 11; Rw := 11 |}, [])
  else
    tmp <- uninitialized E 4 ;;
    tmp <- do_while fuel (fun tmp => GetRandBytes E tmp 4)
             (fun tmp => (decode E tmp =? 0) || (decode E tmp =? 0x9068ffff)) tmp ;;
    let Rz := decode E tmp in
    tmp <- do_while fuel (fun tmp => GetRandBytes E tmp 4)
             (fun tmp => (decode E tmp =? 0) || (decode E tmp =? 0x464fffff)) tmp ;;
    let Rw := decode E tmp in
    ret ({| Rz := Rz; Rw := Rw |}, tmp).

(** ** Scripted environments

    An environment that answers the [k]-th call of each kind from a fixed
    script, used to run the program on concrete inputs. *)

Definition bytes_of (l : list byte) : nat -> byte := fun i => nth i l Byte.x00.

Definition count_events (p : Event -> bool) (h : History) : nat :=
  length (filter p h).

Definition is_RAND_bytes (e : Event) : bool :=
  match e with EvRAND_bytes _ _ _ => true | _ => false end.
Definition is_read (e : Event) : bool :=
  match e with EvRead _ _ _ _ => true | _ => false end.
Definition is_RegQuery (e : Event) : bool :=
  match e with EvRegQueryValueExA _ _ _ => true | _ => false end.

Record Script : Type := {
  s_WIN32 : bool;
  s_clock : Z * Z;
  s_time : Z;
  s_open : Z;
  s_rand : list (Z * list byte);
  s_read : list (Z * list byte);
  s_reg : list (Z * Z)
}.

Definition scripted (s : Script) : Env :=
  {| WIN32 := s_WIN32 s;
     big_endian := false;
     uninit := fun _ => bytes_of [];
     gettimeofday := fun _ => s_clock s;
     QueryPerformanceCounter := fun _ => fst (s_clock s);
     GetTime := fun _ => s_time s;
     RegQueryValueExA := fun h _ =>
       let '(r, n) := nth (count_events is_RegQuery h) (s_reg s) (ERROR_SUCCESS, 0) in
       (r, n, bytes_of []);
     CryptAcquireContextW := fun _ => 1;
     CryptGenRandom := fun h =>
       let '(r, l) := nth (count_events is_read h) (s_read s) (0, []) in
       (r, bytes_of l);
     open_urandom := fun _ => s_open s;
     read := fun h _ _ =>
       let '(n, l) := nth (count_events is_read h) (s_read s) (-1, []) in
       (n, bytes_of l);
     RAND_bytes := fun h _ =>
       let '(r, l) := nth (count_events is_RAND_bytes h) (s_rand s) (0, []) in
       (r, bytes_of l) |}.

Definition w0 : World := {| trace := []; nLastPerfmon := 0; warned := false |}.

Definition u8 (z : Z) : byte := byte_of_Z z.

(** A POSIX machine whose generator first answers a value above the
    accepted range of [GetRand 10], then the value 47. *)
Definition posix1 : Env :=
  scripted {| s_WIN32 := false; s_clock := (1700000000, 250000); s_time := 1700000000;
              s_open := 3;
              s_rand := [(1, map u8 [255;255;255;255;255;255;255;255]);
                         (1, map u8 [47;0;0;0;0;0;0;0])];
              s_read := [(20, map u8 (repeat 7 20)); (12, map u8 (repeat 9 12))];
              s_reg := [] |}.


(** A Windows machine whose performance-data query first answers
    [ERROR_MORE_DATA], then succeeds with 16 bytes. *)
Definition win1 : Env :=
  scripted {| s_WIN32 := true; s_clock := (123456789, 0); s_time := 1700000000;
              s_open := 3;
              s_rand := [(1, map u8 (repeat 5 32))];
              s_read := [(1, map u8 (repeat 7 32))];
              s_reg := [(ERROR_MORE_DATA, 400000); (ERROR_SUCCESS, 16)] |}.

(** A function with 64-byte results that stands for the hash function
    when the program is run on concrete inputs. *)
Definition toy_digest (m : list byte) : list byte :=
  firstn 64 (m ++ repeat Byte.x00 64).

(** A method that returns the sum of the lanes and swaps them, to run a
    sequence of calls on concrete inputs. *)
Definition toy_method (ctx : FastRandomContext) : Z * FastRandomContext :=
  (Rz ctx + Rw ctx, {| Rz := Rw ctx; Rw := Rz ctx + 1 |}).

(** ** The rest of random.cpp *)

(** [GetRandHash].  Modelled from the spec: the type [uint256] of
    uint256.h is not among the sources; the spec calls it the 256-bit
    hash value type, an object of 32 bytes.  [hash] is the local object
    as its default constructor leaves it, and the result is the object
    returned. *)
Definition GetRandHash (E : Env) (hash : list byte) : M (list byte) :=
  hash <- GetRandBytes E hash 32 ;;
  ret hash.

Definition is_LogPrintf (e : Event) : bool :=
  match e with EvLogPrintf _ => true | _ => false end.
Definition is_RAND_add (e : Event) : bool :=
  match e with EvRAND_add _ _ => true | _ => false end.

(** The last step of [RandAddSeedPerfmon], after [RegCloseKey]: the data
    is fed to the pool when the query succeeded; otherwise a warning is
    logged unless one was logged before. *)
Definition perfmon_finish (vData : vector) (r nSize : Z) (w : World) : World :=
  if r =? ERROR_SUCCESS then
    emits [EvRAND_add (take_bytes (vdata vData) (Z.to_nat nSize)) (nSize # 100);
           EvLogPrint "rand" "%s: %lu bytes"] w
  else if warned w then w
  else set_warned true
         (emits [EvLogPrintf
                   "%s: Warning: RegQueryValueExA(HKEY_PERFORMANCE_DATA) failed with code %i"] w).

(** A secure-random device that behaves as POSIX describes: it can be
    opened, and a read of [count > 0] bytes gives between 1 and [count]
    bytes. *)
Definition urandom_conforming (E : Env) : Prop :=
  WIN32 E = false /\
  (forall h, open_urandom E h <> -1) /\
  (forall h fd count, 0 < count -> 0 < fst (read E h fd count) <= count).

(** A big-endian POSIX machine whose device gives at most five bytes to a
    read and whose generator always succeeds. *)
Definition posix2 : Env :=
  {| WIN32 := false;
     big_endian := true;
     uninit := fun _ => bytes_of [];
     gettimeofday := fun h => (1700000000 + Z.of_nat (length h), 999999);
     QueryPerformanceCounter := fun _ => 0;
     GetTime := fun _ => 1700000000;
     RegQueryValueExA := fun _ _ => (ERROR_SUCCESS, 0, bytes_of []);
     CryptAcquireContextW := fun _ => 0;
     CryptGenRandom := fun _ => (0, bytes_of []);
     open_urandom := fun _ => 4;
     read := fun _ _ count => (Z.min count 5, bytes_of (map u8 [1; 2; 3; 4; 5]));
     RAND_bytes := fun _ _ => (1, bytes_of (map u8 [1; 2; 3; 4; 5; 6; 7; 8])) |}.

(** A Windows machine whose performance data cannot be queried. *)
Definition win2 : Env :=
  scripted {| s_WIN32 := true; s_clock := (123456789, 0); s_time := 1700000000;
              s_open := 3;
              s_rand := [(1, map u8 (repeat 5 32))];
              s_read := [(1, map u8 (repeat 7 32))];
              s_reg := [(5, 0)] |}.

(** A POSIX machine whose generator answers 0x464fffff, then 0x9068ffff,
    each lane's constant to the other lane. *)
Definition posix3 : Env :=
  scripted {| s_WIN32 := false; s_clock := (1700000000, 0); s_time := 1700000000;
              s_open := 3;
              s_rand := [(1, map u8 [255; 255; 79; 70]); (1, map u8 [255; 255; 104; 144])];
              s_read := [];
              s_reg := [] |}.

(** A POSIX machine whose device gives 20 bytes to the first read and
    answers [SSIZE_MAX] to the next. *)
Definition posix5 : Env :=
  {| WIN32 := false;
     big_endian := false;
     uninit := fun _ => bytes_of [];
     gettimeofday := fun _ => (1700000000, 0);
     QueryPerformanceCounter := fun _ => 0;
     GetTime := fun _ => 1700000000;
     RegQueryValueExA := fun _ _ => (ERROR_SUCCESS, 0, bytes_of []);
     CryptAcquireContextW := fun _ => 0;
     CryptGenRandom := fun _ => (0, bytes_of []);
     open_urandom := fun _ => 3;
     read := fun _ _ count =>
       if count =? 32 then (20, bytes_of (map u8 (repeat 7 20)))
       else (SSIZE_MAX, bytes_of []);
     RAND_bytes := fun _ _ => (1, bytes_of []) |}.

(** A Windows machine like [win1] whose performance data is not all
    zero: the first query, answered [ERROR_MORE_DATA], writes the bytes
    1, 2, 3, ... and the second, which succeeds with 16 bytes, writes
    101, 102, ... *)
Definition win3 : Env :=
  {| WIN32 := true;
     big_endian := false;
     uninit := uninit win1;
     gettimeofday := gettimeofday win1;
     QueryPerformanceCounter := QueryPerformanceCounter win1;
     GetTime := GetTime win1;
     RegQueryValueExA := fun h size =>
       let k := Z.of_nat (count_events is_RegQuery h) in
       (fst (fst (RegQueryValueExA win1 h size)),
        snd (fst (RegQueryValueExA win1 h size)),
        fun i => u8 ((100 * k + Z.of_nat i + 1) mod 256));
     CryptAcquireContextW := CryptAcquireContextW win1;
     CryptGenRandom := CryptGenRandom win1;
     open_urandom := open_urandom win1;
     read := read win1;
     RAND_bytes := RAND_bytes win1 |}.

(** A POSIX machine whose generator answers 0, then 0x9068ffff, then 5,
    then 0, then 0x464fffff, then 7. *)
Definition posix6 : Env :=
  scripted {| s_WIN32 := false; s_clock := (1700000000, 0); s_time := 1700000000;
              s_open := 3;
              s_rand := [(1, map u8 [0; 0; 0; 0]); (1, map u8 [255; 255; 104; 144]);
                         (1, map u8 [5; 0; 0; 0]); (1, map u8 [0; 0; 0; 0]);
                         (1, map u8 [255; 255; 79; 70]); (1, map u8 [7; 0; 0; 0])];
              s_read := [];
              s_reg := [] |}.

(** A POSIX machine whose secure-random device cannot be opened. *)
Definition posix4 : Env :=
  scripted {| s_WIN32 := false; s_clock := (1700000000, 0); s_time := 1700000000;
              s_open := -1;
              s_rand := [];
              s_read := [(32, map u8 (repeat 7 32))];
              s_reg := [] |}.

(** A world in which the performance data was sampled at time
    1699999900, and one in which the warning was already logged. *)
Definition w_sampled : World :=
  {| trace := []; nLastPerfmon := 1699999900; warned := false |}.
Definition w_warned : World :=
  {| trace := []; nLastPerfmon := 0; warned := true |}.

(** * Properties *)

(** ** Bytes, buffers and integer objects *)

Lemma byte_to_Z_range (x : byte) : 0 <= byte_to_Z x < 256.
Proof.
  unfold byte_to_Z.
  pose proof (Byte.to_N_bounded x) as H.
  lia.
Qed.

Lemma le_decode_range (bs : list byte) :
  0 <= le_decode bs < 256 ^ Z.of_nat (length bs).
Proof.
  induction bs as [|x bs IH].
  - simpl. lia.
  - cbn [le_decode length].
    rewrite Nat2Z.inj_succ, Z.pow_succ_r by lia.
    pose proof (byte_to_Z_range x). lia.
Qed.

Lemma decode_range (E : Env) (bs : list byte) :
  0 <= decode E bs < 256 ^ Z.of_nat (length bs).
Proof.
  unfold decode.
  destruct (big_endian E).
  - rewrite <- length_rev. apply le_decode_range.
  - apply le_decode_range.
Qed.

Lemma length_take_bytes (src : nat -> byte) (n : nat) :
  length (take_bytes src n) = n.
Proof. unfold take_bytes. now rewrite length_map, length_seq. Qed.

Lemma write_at_whole (buf data : list byte) :
  length buf = length data -> write_at buf 0 data = data.
Proof.
  intros H. unfold write_at. cbn [firstn Nat.add app].
  rewrite skipn_all2 by lia. apply app_nil_r.
Qed.

Lemma length_write_at_0 (buf data : list byte) :
  (length data <= length buf)%nat ->
  length (write_at buf 0 data) = length buf.
Proof.
  intros H. unfold write_at. cbn [firstn Nat.add app].
  rewrite length_app, length_skipn. lia.
Qed.

Lemma firstn_write_at_0 (buf data : list byte) (n : nat) :
  (n <= length data)%nat ->
  firstn n (write_at buf 0 data) = firstn n data.
Proof.
  intros H. unfold write_at. cbn [firstn app].
  rewrite firstn_app.
  replace (n - length data)%nat with 0%nat by lia.
  cbn [firstn]. apply app_nil_r.
Qed.

Lemma length_le_encode (n : nat) (z : Z) : length (le_encode n z) = n.
Proof. revert z. induction n; intros; simpl; auto. Qed.

Lemma length_encode (E : Env) (n : nat) (z : Z) : length (encode E n z) = n.
Proof.
  unfold encode. destruct (big_endian E).
  - now rewrite length_rev, length_le_encode.
  - apply length_le_encode.
Qed.

(** ** The accepted range of [GetRand] *)

Lemma to_uint64_small (z : Z) : 0 <= z <= UINT64_MAX -> to_uint64 z = z.
Proof.
  unfold to_uint64, to_uint, UINT64_MAX. intros H.
  apply Z.mod_small. lia.
Qed.

Lemma nRange_eq (nMax : Z) :
  0 < nMax <= UINT64_MAX -> nRange nMax = UINT64_MAX / nMax * nMax.
Proof.
  intros H. unfold nRange.
  assert (Hq : 0 <= UINT64_MAX / nMax <= UINT64_MAX).
  { split.
    - apply Z.div_pos; unfold UINT64_MAX; lia.
    - apply Z.div_le_upper_bound; unfold UINT64_MAX in *; nia. }
  rewrite (to_uint64_small (UINT64_MAX / nMax)) by exact Hq.
  apply to_uint64_small.
  pose proof (Z.mul_div_le UINT64_MAX nMax). nia.
Qed.

Lemma nRange_bounds (nMax : Z) :
  0 < nMax <= UINT64_MAX -> nMax <= nRange nMax <= UINT64_MAX.
Proof.
  intros H. rewrite nRange_eq by exact H.
  assert (1 <= UINT64_MAX / nMax).
  { apply Z.div_le_lower_bound; lia. }
  pose proof (Z.mul_div_le UINT64_MAX nMax). nia.
Qed.

Lemma nRange_div (nMax : Z) :
  0 < nMax <= UINT64_MAX -> nRange nMax / nMax = UINT64_MAX / nMax.
Proof.
  intros H. rewrite nRange_eq by exact H. apply Z.div_mul. lia.
Qed.

Lemma nRange_multiple (nMax : Z) :
  0 < nMax <= UINT64_MAX -> nRange nMax = nRange nMax / nMax * nMax.
Proof.
  intros H. rewrite nRange_div by exact H. now apply nRange_eq.
Qed.




(** ** Worlds and traces *)

Lemma emit_emits (e : Event) (evs : History) (w : World) :
  emit e (emits evs w) = emits (evs ++ [e]) w.
Proof. unfold emit, emits. cbn. now rewrite app_assoc. Qed.

Lemma emit_as_emits (e : Event) (w : World) : emit e w = emits [e] w.
Proof. reflexivity. Qed.

Lemma emits_emits (evs1 evs2 : History) (w : World) :
  emits evs2 (emits evs1 w) = emits (evs1 ++ evs2) w.
Proof. unfold emits. cbn. now rewrite app_assoc. Qed.

Lemma emits_nil (w : World) : emits [] w = w.
Proof. destruct w. unfold emits. cbn. now rewrite app_nil_r. Qed.

(** ** Loops and fuel *)

(** A loop that came to an end does the same with more fuel. *)
Lemma do_while_more_fuel {St : Type} (body : St -> M St) (cond : St -> bool) :
  forall (fuel fuel' : nat) (s : St) (w : World),
    (fuel <= fuel')%nat ->
    finished (do_while fuel body cond s w) ->
    do_while fuel' body cond s w = do_while fuel body cond s w.
Proof.
  induction fuel as [|fuel IH]; intros fuel' s w Hle Hfin.
  - cbn in Hfin. contradiction.
  - destruct fuel' as [|fuel']; [lia|].
    cbn [do_while] in *. unfold bind in *.
    destruct (body s w) as [s' w'|w'|w'| |w']; try reflexivity.
    destruct (cond s'); [|reflexivity].
    apply IH; [lia|exact Hfin].
Qed.

Lemma finished_bind {A B : Type} (c : M A) (k : A -> M B) (w : World) :
  finished (bind c k w) -> finished (c w).
Proof.
  unfold bind. destruct (c w); cbn; auto.
Qed.

(** ** The OpenSSL facade *)

Lemma GetRandBytes_eq (E : Env) (buf : list byte) (num : Z) (w : World) :
  GetRandBytes E buf num w =
  let r := fst (RAND_bytes E (trace w) num) in
  let data := take_bytes (snd (RAND_bytes E (trace w) num)) (Z.to_nat num) in
  if r =? 1
  then Returned (write_at buf 0 data) (emits [EvRAND_bytes num r data] w)
  else Aborted (emits ([EvRAND_bytes num r data] ++ RandFailure_events) w).
Proof.
  unfold GetRandBytes, bind, call_RAND_bytes.
  destruct (RAND_bytes E (trace w) num) as [r src]. cbn.
  destruct (r =? 1); cbn.
  - reflexivity.
  - unfold emit, emits; cbn. now rewrite <- !app_assoc.
Qed.

(** A loop that draws [n] bytes into an [n]-byte object until [cond]
    fails: it returns the first draw that fails [cond], after draws that
    all satisfy it; or it aborts at the first failing [RAND_bytes]; or all
    of its [fuel] draws satisfied [cond]. *)
Lemma draw_loop_spec (E : Env) (n : nat) (cond : list byte -> bool) (fuel : nat) :
  forall (buf : list byte) (w : World),
    length buf = n ->
    match do_while fuel (fun x => GetRandBytes E x (Z.of_nat n)) cond buf w with
    | Returned d w' =>
        exists rej,
          Forall (fun x => cond x = true /\ length x = n) rej /\
          cond d = false /\ length d = n /\
          w' = emits (draw_events (Z.of_nat n) (rej ++ [d])) w
    | Aborted w' =>
        exists rej r data,
          Forall (fun x => cond x = true /\ length x = n) rej /\
          r <> 1 /\
          w' = emits (draw_events (Z.of_nat n) rej ++
                      [EvRAND_bytes (Z.of_nat n) r data] ++ RandFailure_events) w
    | OutOfFuel w' =>
        exists rej,
          Forall (fun x => cond x = true /\ length x = n) rej /\
          length rej = fuel /\
          w' = emits (draw_events (Z.of_nat n) rej) w
    | AssertFailed _ | Undefined _ => False
    end.
Proof.
  induction fuel as [|fuel IH]; intros buf w Hlen.
  - cbn. exists []. cbn. now rewrite emits_nil.
  - cbn [do_while]. unfold bind at 1. rewrite GetRandBytes_eq. cbv zeta.
    set (r := fst (RAND_bytes E (trace w) (Z.of_nat n))).
    set (data := take_bytes _ _).
    assert (Hdata : length data = n).
    { subst data. now rewrite length_take_bytes, Nat2Z.id. }
    destruct (r =? 1) eqn:Hr.
    + apply Z.eqb_eq in Hr. rewrite Hr.
      rewrite write_at_whole by congruence.
      destruct (cond data) eqn:Hc.
      * specialize (IH data (emits [EvRAND_bytes (Z.of_nat n) 1 data] w) Hdata).
        destruct (do_while fuel _ cond data _) as [d w'|w'|w'| |w']; try exact IH.
        -- destruct IH as (rej & Hrej & Hd & Hl & ->).
           exists (data :: rej). repeat split; auto.
           now rewrite emits_emits.
        -- destruct IH as (rej & r' & data' & Hrej & Hr' & ->).
           exists (data :: rej), r', data'. repeat split; auto.
           now rewrite emits_emits.
        -- destruct IH as (rej & Hrej & Hl & ->).
           exists (data :: rej). repeat split; auto.
           ++ cbn. now rewrite Hl.
           ++ now rewrite emits_emits.
      * exists []. repeat split; auto.
    + apply Z.eqb_neq in Hr.
      exists [], r, data. repeat split; auto.
Qed.

(** ** The bounded uniform generator *)

Lemma GetRand_0 (E : Env) (fuel : nat) (w : World) :
  GetRand E fuel 0 w = Returned 0 w.
Proof. reflexivity. Qed.

(** What [GetRand] does for a bound [nMax > 0]: it returns the residue of
    the first draw below [nRange nMax], after draws that were all at or
    above it; or it aborts at the first failing [RAND_bytes]; or each of
    its [fuel] draws was at or above [nRange nMax]. *)
Lemma GetRand_spec (E : Env) (fuel : nat) (nMax : Z) (w : World) :
  0 < nMax <= UINT64_MAX ->
  match GetRand E fuel nMax w with
  | Returned r w' =>
      0 <= r < nMax /\
      exists rejected v,
        Forall (fun x => nRange nMax <= decode E x) rejected /\
        0 <= decode E v < nRange nMax /\
        r = decode E v mod nMax /\
        w' = emits (draw_events 8 (rejected ++ [v])) w
  | Aborted w' =>
      exists rejected r data,
        Forall (fun x => nRange nMax <= decode E x) rejected /\
        r <> 1 /\
        w' = emits (draw_events 8 rejected ++
                    [EvRAND_bytes 8 r data] ++ RandFailure_events) w
  | OutOfFuel w' =>
      exists rejected,
        Forall (fun x => nRange nMax <= decode E x) rejected /\
        length rejected = fuel /\
        w' = emits (draw_events 8 rejected) w
  | AssertFailed _ | Undefined _ => False
  end.
Proof.
  intros HM. unfold GetRand.
  destruct (nMax =? 0) eqn:H0; [apply Z.eqb_eq in H0; lia|].
  unfold bind.
  pose proof (draw_loop_spec E 8 (fun nRand => decode E nRand >=? nRange nMax)
                fuel (encode E 8 0) w (length_encode E 8 0)) as L.
  change (Z.of_nat 8) with 8 in L.
  assert (Hrej : forall l,
             Forall (fun x => (decode E x >=? nRange nMax) = true /\ length x = 8%nat) l ->
             Forall (fun x => nRange nMax <= decode E x) l).
  { intros l Hl. eapply Forall_impl; [|exact Hl].
    cbv beta. intros x [Hx _]. apply Z.geb_le in Hx. exact Hx. }
  destruct (do_while fuel _ _ (encode E 8 0) w) as [d w'|w'|w'| |w']; try exact L.
  - destruct L as (rej & Hr & Hd & Hl & ->). unfold ret.
    assert (decode E d < nRange nMax).
    { destruct (decode E d >=? nRange nMax) eqn:C; [discriminate|].
      rewrite Z.geb_leb in C. apply Z.leb_gt in C. exact C. }
    pose proof (decode_range E d).
    split; [apply Z.mod_pos_bound; lia|].
    exists rej, d. repeat split; auto; lia.
  - destruct L as (rej & r & data & Hr & Hne & ->).
    exists rej, r, data. auto.
  - destruct L as (rej & Hr & Hl & ->).
    exists rej. auto.
Qed.

(** The call whose first draw [d] succeeds: it returns the residue [r]
    after that single draw exactly when [d] is below [nRange nMax] and
    its residue is [r]. *)
Lemma GetRand_first_draw (E : Env) (fuel : nat) (nMax r : Z) (w : World) :
  0 < nMax <= UINT64_MAX ->
  fst (RAND_bytes E (trace w) 8) = 1 ->
  let d := take_bytes (snd (RAND_bytes E (trace w) 8)) 8 in
  GetRand E (S fuel) nMax w = Returned r (emits [EvRAND_bytes 8 1 d] w) <->
  decode E d < nRange nMax /\ decode E d mod nMax = r.
Proof.
  intros HM H1 d. unfold GetRand.
  destruct (nMax =? 0) eqn:H0; [apply Z.eqb_eq in H0; lia|].
  cbn [do_while]. unfold bind at 1. unfold bind at 1.
  rewrite GetRandBytes_eq. cbv zeta. rewrite H1. cbn [Z.eqb Pos.eqb].
  change (Z.to_nat 8) with 8%nat. fold d.
  assert (Hd : length d = 8%nat) by apply length_take_bytes.
  rewrite write_at_whole by (rewrite length_encode; lia).
  destruct (decode E d >=? nRange nMax) eqn:C.
  - rewrite Z.geb_leb in C. apply Z.leb_le in C.
    split; [|intros [Hlt _]; lia].
    intros G. exfalso.
    pose proof (draw_loop_spec E 8 (fun nRand => decode E nRand >=? nRange nMax)
                  fuel d (emits [EvRAND_bytes 8 1 d] w) Hd) as L.
    change (Z.of_nat 8) with 8 in L.
    destruct (do_while fuel _ _ d _) as [v w'|w'|w'| |w']; try discriminate G.
    destruct L as (rej & _ & _ & _ & ->).
    unfold ret in G. injection G as _ G.
    apply (f_equal (@length Event)) in G. unfold draw_events in G.
    rewrite !length_app, length_map, length_app in G. cbn [length] in G. lia.
  - rewrite Z.geb_leb in C. apply Z.leb_gt in C. unfold ret.
    split.
    + intros G. injection G as G. auto.
    + intros [_ <-]. reflexivity.
Qed.

Lemma GetRand_more_fuel (E : Env) (fuel fuel' : nat) (nMax : Z) (w : World) :
  (fuel <= fuel')%nat ->
  finished (GetRand E fuel nMax w) ->
  GetRand E fuel' nMax w = GetRand E fuel nMax w.
Proof.
  intros Hle Hfin. unfold GetRand in *.
  destruct (nMax =? 0); [reflexivity|].
  apply finished_bind in Hfin.
  unfold bind. now rewrite (do_while_more_fuel _ _ fuel fuel' _ w Hle Hfin).
Qed.

(** ** The seeding of [FastRandomContext] *)

Lemma FastRandomContext_ctor_deterministic (E : Env) (fuel : nat) (w : World) :
  FastRandomContext_ctor E fuel true w = Returned {| Rz := 11; Rw := 11 |} w.
Proof. reflexivity. Qed.

(** ** Narrowing *)

Lemma to_int_range (z : Z) : INT_MIN <= to_int z <= INT_MAX.
Proof.
  unfold to_int, to_sint, INT_MIN, INT_MAX.
  change (2 ^ (32 - 1)) with 2147483648. change (2 ^ 32) with 4294967296.
  change (2 ^ 31) with 2147483648.
  pose proof (Z.mod_pos_bound (z + 2147483648) 4294967296). lia.
Qed.

Lemma to_int_small (z : Z) : INT_MIN <= z <= INT_MAX -> to_int z = z.
Proof.
  unfold to_int, to_sint, INT_MIN, INT_MAX.
  change (2 ^ (32 - 1)) with 2147483648. change (2 ^ 32) with 4294967296.
  change (2 ^ 31) with 2147483648.
  intros H. rewrite Z.mod_small by lia. lia.
Qed.

Lemma to_uint64_negative (z : Z) :
  INT_MIN <= z < 0 -> to_uint64 z = 2 ^ 64 + z.
Proof.
  unfold to_uint64, to_uint, INT_MIN. intros H.
  change (2 ^ 31) with 2147483648 in H.
  change (2 ^ 64) with 18446744073709551616.
  symmetry. apply Z.mod_unique with (q := -1); lia.
Qed.

Lemma nRange_huge (bound : Z) :
  2 ^ 63 <= bound <= UINT64_MAX -> nRange bound = bound.
Proof.
  unfold UINT64_MAX. change (2 ^ 63) with 9223372036854775808.
  change (2 ^ 64) with 18446744073709551616.
  intros H. rewrite nRange_eq by (unfold UINT64_MAX; lia).
  unfold UINT64_MAX. change (2 ^ 64) with 18446744073709551616.
  assert ((18446744073709551616 - 1) / bound = 1) as ->; [|lia].
  symmetry. apply Z.div_unique with (r := 18446744073709551616 - 1 - bound); lia.
Qed.

(** ** The OS entropy source *)

Lemma read_events_app (fd have : Z) (chunks1 chunks2 : list (list byte)) :
  read_events fd have (chunks1 ++ chunks2) =
  read_events fd have chunks1 ++
  read_events fd (have + Z.of_nat (length (concat chunks1))) chunks2.
Proof.
  revert have. induction chunks1 as [|c rest IH]; intros have.
  - cbn. now rewrite Z.add_0_r.
  - cbn [app read_events concat]. rewrite IH, length_app, Nat2Z.inj_add.
    now rewrite Z.add_assoc.
Qed.

Lemma ssize_add_overflow (n have : Z) :
  0 < n -> 0 <= have < 32 ->
  in_ssize n && in_ssize have && negb (in_ssize (n + have))
  = (n <=? SSIZE_MAX) && (SSIZE_MAX <? n + have).
Proof.
  intros Hn Hh. unfold in_ssize, SSIZE_MAX, SSIZE_MIN.
  change (2 ^ 63) with 9223372036854775808.
  destruct (Z.leb_spec (- 9223372036854775808) n);
    destruct (Z.leb_spec n (9223372036854775808 - 1));
    destruct (Z.leb_spec (- 9223372036854775808) have);
    destruct (Z.leb_spec have (9223372036854775808 - 1));
    destruct (Z.leb_spec (- 9223372036854775808) (n + have));
    destruct (Z.leb_spec (n + have) (9223372036854775808 - 1));
    destruct (Z.ltb_spec (9223372036854775808 - 1) (n + have));
    cbn; try reflexivity; lia.
Qed.

Lemma GetOSRand_body_eq (E : Env) (f : Z) (buf : list byte) (have : Z) (w : World) :
  0 <= have < 32 ->
  GetOSRand_body E f (buf, have) w =
  let n := fst (read E (trace w) f (32 - have)) in
  let data := take_bytes (snd (read E (trace w) f (32 - have))) (Z.to_nat n) in
  if n <=? 0
  then Aborted (emits ([EvRead f (32 - have) n data] ++ RandFailure_events) w)
  else if (n <=? SSIZE_MAX) && (SSIZE_MAX <? n + have)
  then Undefined (emits [EvRead f (32 - have) n data] w)
  else if n + have >? 32
  then Aborted (emits ([EvRead f (32 - have) n data] ++ RandFailure_events) w)
  else Returned (write_at buf (Z.to_nat have) data, have + n)
                (emits [EvRead f (32 - have) n data] w).
Proof.
  intros Hh. unfold GetOSRand_body. unfold bind at 1. unfold call_read.
  rewrite to_uint64_small by (unfold UINT64_MAX; lia).
  destruct (read E (trace w) f (32 - have)) as [n src]. cbn [fst snd]. cbv zeta.
  assert (RF : forall w0 : World,
             RandFailure w0 = Aborted (emits RandFailure_events w0)).
  { intros w0. unfold RandFailure, LogPrintf, log, bind, abort, emit, emits.
    cbn. now rewrite <- !app_assoc. }
  unfold bind at 1.
  destruct (n <=? 0) eqn:C0.
  - unfold ret at 1. unfold bind at 1. rewrite RF, emit_as_emits, emits_emits.
    reflexivity.
  - apply Z.leb_gt in C0. unfold bind at 1. unfold ssize_add.
    rewrite ssize_add_overflow by lia.
    destruct ((n <=? SSIZE_MAX) && (SSIZE_MAX <? n + have)); [reflexivity|].
    unfold ret at 1. unfold ret at 1.
    destruct (n + have >? 32) eqn:C1.
    + unfold bind at 1. rewrite RF, emit_as_emits, emits_emits. reflexivity.
    + unfold bind, ret. rewrite Z.gtb_ltb in C1. apply Z.ltb_ge in C1.
      rewrite to_int_small by (unfold INT_MIN, INT_MAX; lia).
      reflexivity.
Qed.

(** The partial-read loop, entered with [have] bytes in place: within
    [32 - have] iterations it has stored the remaining bytes, in
    non-empty pieces, or aborted at a read that gave nothing or too
    much, or met a read whose sum overflows; the reads are those of
    [read E]. *)
Lemma GetOSRand_loop_spec (E : Env) (f : Z) (fuel : nat) :
  forall (buf : list byte) (have : Z) (w : World),
    0 <= have < 32 ->
    (Z.to_nat have <= length buf)%nat ->
    (Z.to_nat (32 - have) <= fuel)%nat ->
    match do_while fuel (GetOSRand_body E f) (fun s => snd s <? 32) (buf, have) w with
    | Returned (out, have') w' =>
        have' = 32 /\
        exists chunks,
          urandom_loop E f (trace w) have chunks LoopDone /\
          Forall (fun c => c <> []) chunks /\
          have + Z.of_nat (length (concat chunks)) = 32 /\
          out = firstn (Z.to_nat have) buf ++ concat chunks ++ skipn 32 buf /\
          w' = emits (read_events f have chunks) w
    | Aborted w' =>
        exists chunks e,
          urandom_loop E f (trace w) have chunks (LoopFailed e) /\
          w' = emits (read_events f have chunks ++ [e] ++ RandFailure_events) w
    | Undefined w' =>
        exists chunks e,
          urandom_loop E f (trace w) have chunks (LoopOverflowed e) /\
          w' = emits (read_events f have chunks ++ [e]) w
    | OutOfFuel _ | AssertFailed _ => False
    end.
Proof.
  induction fuel as [|fuel IH]; intros buf have w Hh Hlen Hfuel; [lia|].
  cbn [do_while]. unfold bind at 1.
  rewrite GetOSRand_body_eq by exact Hh. cbv zeta.
  set (n := fst (read E (trace w) f (32 - have))).
  set (data := take_bytes _ _).
  assert (Hdata : length data = Z.to_nat n).
  { subst data. apply length_take_bytes. }
  destruct (n <=? 0) eqn:C0.
  { apply Z.leb_le in C0.
    exists [], (EvRead f (32 - have) n data). split; [|reflexivity].
    apply loop_failed; auto. }
  apply Z.leb_gt in C0.
  destruct ((n <=? SSIZE_MAX) && (SSIZE_MAX <? n + have)) eqn:CO.
  { apply andb_true_iff in CO. rewrite Z.leb_le, Z.ltb_lt in CO.
    exists [], (EvRead f (32 - have) n data). split; [|reflexivity].
    apply loop_overflowed; auto; lia. }
  apply andb_false_iff in CO. rewrite Z.leb_gt, Z.ltb_ge in CO.
  destruct (n + have >? 32) eqn:C2.
  { rewrite Z.gtb_ltb in C2. apply Z.ltb_lt in C2.
    exists [], (EvRead f (32 - have) n data). split; [|reflexivity].
    apply loop_failed; auto. right. split; [lia|]. lia. }
  rewrite Z.gtb_ltb in C2. apply Z.ltb_ge in C2.
  assert (Hn : Z.of_nat (length data) = n) by lia.
  assert (Hne : data <> []).
  { intros ->. cbn in Hn. lia. }
  assert (Hf : firstn (Z.to_nat have) buf ++ data
               = firstn (Z.to_nat (have + n)) (write_at buf (Z.to_nat have) data)).
  { unfold write_at. rewrite app_assoc, firstn_app.
    rewrite length_app, length_firstn, Nat.min_l by lia.
    replace (Z.to_nat (have + n) - (Z.to_nat have + length data))%nat with 0%nat by lia.
    cbn [firstn]. rewrite app_nil_r.
    apply eq_sym, firstn_all2. rewrite length_app, length_firstn. lia. }
  cbn [snd]. destruct (have + n <? 32) eqn:Hlt.
  - apply Z.ltb_lt in Hlt.
    assert (Hlen' : (Z.to_nat (have + n) <= length (write_at buf (Z.to_nat have) data))%nat).
    { unfold write_at. rewrite !length_app, length_firstn. lia. }
    specialize (IH (write_at buf (Z.to_nat have) data) (have + n)
                   (emits [EvRead f (32 - have) n data] w)
                   ltac:(lia) Hlen' ltac:(lia)).
    destruct (do_while fuel _ _ _ _) as [[out have'] w'|w'|w'|w'|w']; try exact IH.
    + destruct IH as (Hh' & chunks & HL & Hc & Hsum & Hout & ->).
      split; [exact Hh'|]. exists (data :: chunks).
      cbn [concat read_events]. rewrite length_app, Nat2Z.inj_add, Hn.
      repeat split; auto; try lia.
      * apply (loop_read E f (trace w) have n data chunks LoopDone);
          [lia|reflexivity|reflexivity|lia|lia|exact HL].
      * rewrite Hout, <- Hf, <- !app_assoc. do 3 f_equal.
        unfold write_at. rewrite skipn_app, skipn_app.
        rewrite (skipn_all2 (firstn _ _)) by (rewrite length_firstn; lia).
        rewrite (skipn_all2 data) by (rewrite length_firstn; lia).
        cbn [app]. rewrite skipn_skipn. f_equal.
        rewrite length_firstn, Nat.min_l by lia. lia.
      * rewrite emits_emits. reflexivity.
    + destruct IH as (chunks & e & HL & ->).
      exists (data :: chunks), e. split.
      * apply (loop_read E f (trace w) have n data chunks _);
          [lia|reflexivity|reflexivity|lia|lia|exact HL].
      * cbn [read_events]. rewrite Hn, emits_emits. reflexivity.
    + destruct IH as (chunks & e & HL & ->).
      exists (data :: chunks), e. split.
      * apply (loop_read E f (trace w) have n data chunks _);
          [lia|reflexivity|reflexivity|lia|lia|exact HL].
      * cbn [read_events]. rewrite Hn, emits_emits. reflexivity.
  - apply Z.ltb_ge in Hlt. unfold ret.
    split; [lia|]. exists [data]. cbn [concat read_events].
    rewrite app_nil_r, Hn.
    repeat split; auto; try lia.
    + apply (loop_read E f (trace w) have n data [] LoopDone);
        [lia|reflexivity|reflexivity|lia|lia|].
      replace (have + n) with 32 by lia. apply loop_done.
    + rewrite app_assoc, Hf. unfold write_at.
      replace (Z.to_nat (have + n)) with 32%nat by lia.
      rewrite <- (firstn_skipn 32 (firstn (Z.to_nat have) buf ++ data ++ _)) at 1.
      f_equal. rewrite app_assoc, skipn_app.
      rewrite skipn_all2 by (rewrite length_app, length_firstn; lia).
      cbn [app]. rewrite length_app, length_firstn, Nat.min_l by lia.
      replace (Z.to_nat have + length data)%nat with 32%nat by lia.
      rewrite Nat.sub_diag. reflexivity.
Qed.

(** [GetOSRand] with fuel for the 32 iterations the loop can need. *)
Lemma GetOSRand_spec (E : Env) (fuel : nat) (ent32 : list byte) (w : World) :
  (32 <= fuel)%nat ->
  match GetOSRand E fuel ent32 w with
  | Returned out w' =>
      exists data evs,
        length data = 32%nat /\
        out = data ++ skipn 32 ent32 /\
        GetOSRand_success E (trace w) evs data /\
        w' = emits evs w
  | Aborted w' =>
      exists evs,
        GetOSRand_failure E (trace w) evs /\
        w' = emits (evs ++ RandFailure_events) w
  | Undefined w' =>
      exists evs,
        GetOSRand_overflow E (trace w) evs /\
        w' = emits evs w
  | OutOfFuel _ | AssertFailed _ => False
  end.
Proof.
  intros Hfuel. unfold GetOSRand.
  destruct (WIN32 E) eqn:HW.
  - unfold bind, call_CryptAcquireContextW, call_CryptGenRandom,
      call_CryptReleaseContext, log.
    set (r1 := CryptAcquireContextW E (trace w)).
    destruct (r1 =? 0) eqn:H1.
    + apply Z.eqb_eq in H1. rewrite H1. cbn.
      exists [EvCryptAcquireContextW 0]. split; [now constructor|].
      unfold emit, emits. cbn. now rewrite <- !app_assoc.
    + apply Z.eqb_neq in H1. cbn [ret trace emit].
      destruct (CryptGenRandom E (trace w ++ [EvCryptAcquireContextW r1]))
        as [r2 src] eqn:HG.
      destruct (r2 =? 0) eqn:H2.
      * apply Z.eqb_eq in H2. subst r2. cbn.
        exists [EvCryptAcquireContextW r1; EvCryptGenRandom 0 []].
        split; [apply failure_CryptGenRandom; auto; now rewrite HG|].
        unfold emit, emits. cbn. now rewrite <- !app_assoc.
      * apply Z.eqb_neq in H2. cbn [ret].
        exists (take_bytes src 32),
          [EvCryptAcquireContextW r1; EvCryptGenRandom r2 (take_bytes src 32);
           EvCryptReleaseContext].
        split; [apply length_take_bytes|].
        split; [reflexivity|].
        split; [apply success_CryptGenRandom; auto; now rewrite HG|].
        unfold emit, emits. cbn. now rewrite <- !app_assoc.
  - unfold bind at 1. unfold call_open.
    set (f := open_urandom E (trace w)).
    unfold bind at 1.
    destruct (f =? -1) eqn:Hf.
    + apply Z.eqb_eq in Hf. rewrite Hf. cbn.
      exists [EvOpen (-1)]. split; [now constructor|].
      unfold emit, emits. cbn. now rewrite <- !app_assoc.
    + apply Z.eqb_neq in Hf. cbn [ret]. unfold bind at 1.
      pose proof (GetOSRand_loop_spec E f fuel ent32 0 (emit (EvOpen f) w)
                    ltac:(lia) ltac:(cbn; lia) ltac:(cbn; lia)) as L.
      cbn [trace emit] in L.
      destruct (do_while fuel _ _ _ _) as [[out have'] w'|w'|w'|w'|w']; try exact L.
      * destruct L as (_ & chunks & HL & Hc & Hsum & -> & ->).
        unfold bind, call_close, log, ret.
        exists (concat chunks), ([EvOpen f] ++ read_events f 0 chunks ++ [EvClose f]).
        split; [lia|]. split; [reflexivity|].
        split; [now constructor|].
        rewrite (emit_as_emits (EvOpen f) w), emits_emits, emit_emits.
        now rewrite <- !app_assoc.
      * destruct L as (chunks & e & HL & ->).
        exists ([EvOpen f] ++ read_events f 0 chunks ++ [e]).
        split; [now constructor|].
        rewrite (emit_as_emits (EvOpen f) w), emits_emits.
        now rewrite <- !app_assoc.
      * destruct L as (chunks & e & HL & ->).
        exists ([EvOpen f] ++ read_events f 0 chunks ++ [e]).
        split; [now constructor|].
        rewrite (emit_as_emits (EvOpen f) w), emits_emits.
        reflexivity.
Qed.

(** ** The seed mixer *)

Lemma memory_cleanse_whole (buf : list byte) (n : nat) :
  length buf = n -> memory_cleanse buf n = repeat Byte.x00 n.
Proof.
  intros <-. unfold memory_cleanse.
  apply write_at_whole. now rewrite repeat_length.
Qed.

Lemma RandAddSeed_eq (E : Env) (w : World) :
  RandAddSeed E w = Returned (repeat Byte.x00 8) (emits (timing_feed E (trace w)) w).
Proof.
  unfold RandAddSeed, GetPerformanceCounter, timing_feed, bind.
  destruct (WIN32 E).
  - unfold call_QueryPerformanceCounter, RAND_add, log, ret.
    rewrite memory_cleanse_whole by apply length_encode.
    unfold emit, emits. cbn. now rewrite <- !app_assoc.
  - unfold call_gettimeofday.
    destruct (gettimeofday E (trace w)) as [sec usec].
    unfold RAND_add, log, ret.
    rewrite memory_cleanse_whole by apply length_encode.
    unfold emit, emits. cbn. now rewrite <- !app_assoc.
Qed.

(** The loop over the performance data ends within two queries: after one
    growth the buffer is at least [nMaxSize] bytes long. *)
Lemma RandAddSeedPerfmon_loop_returns (E : Env) (fuel : nat) (vData : vector) (w : World) :
  (2 <= fuel)%nat ->
  exists v r n evs,
    RandAddSeedPerfmon_loop E fuel vData w = Returned (v, r, n) (emits evs w) /\
    Forall (fun e => is_RegQuery e = true) evs.
Proof.
  intros Hfuel. destruct fuel as [|[|fuel]]; try lia.
  cbn [RandAddSeedPerfmon_loop]. unfold bind at 1. unfold call_RegQueryValueExA at 1.
  destruct (RegQueryValueExA E (trace w) (to_uint32 (vsize vData))) as [[r n] src].
  cbn [vector_store vsize].
  destruct (negb (r =? ERROR_MORE_DATA) || (vsize vData >=? nMaxSize)) eqn:C.
  - unfold ret. eexists _, _, _, [_]. split; [reflexivity|].
    repeat constructor.
  - unfold bind at 1. unfold call_RegQueryValueExA at 1. cbn [resize vsize].
    destruct (RegQueryValueExA E _ _) as [[r' n'] src'].
    cbn [vector_store resize vsize].
    replace (Z.max (vsize vData * 3 / 2) nMaxSize >=? nMaxSize) with true
      by (symmetry; rewrite Z.geb_leb; apply Z.leb_le; lia).
    rewrite orb_true_r. unfold ret.
    eexists _, _, _, [_; _]. split.
    + rewrite (emit_as_emits _ w), emit_emits. reflexivity.
    + repeat constructor.
Qed.

(** One growth of the buffer: when the query on a buffer shorter than
    [nMaxSize] answers [ERROR_MORE_DATA], the buffer is resized to the
    larger of one and a half times its size and [nMaxSize], and the loop
    ends at the next query. *)
Lemma RandAddSeedPerfmon_loop_growth (E : Env) (fuel : nat) (vData : vector) (w : World) :
  fst (fst (RegQueryValueExA E (trace w) (to_uint32 (vsize vData)))) = ERROR_MORE_DATA ->
  vsize vData < nMaxSize ->
  exists v r n n1,
    RandAddSeedPerfmon_loop E (S (S fuel)) vData w =
    Returned (v, r, n)
      (emits [EvRegQueryValueExA (to_uint32 (vsize vData)) ERROR_MORE_DATA n1;
              EvRegQueryValueExA
                (to_uint32 (Z.max (vsize vData * 3 / 2) nMaxSize)) r n] w) /\
    vsize v = Z.max (vsize vData * 3 / 2) nMaxSize /\
    nMaxSize <= vsize v.
Proof.
  intros Hr Hsmall.
  cbn [RandAddSeedPerfmon_loop]. unfold bind at 1. unfold call_RegQueryValueExA at 1.
  destruct (RegQueryValueExA E (trace w) (to_uint32 (vsize vData))) as [[r n] src].
  cbn [fst] in Hr. subst r. cbn [vector_store vsize].
  replace (vsize vData >=? nMaxSize) with false
    by (symmetry; rewrite Z.geb_leb; apply Z.leb_gt; lia).
  rewrite Z.eqb_refl. cbn [negb orb].
  unfold bind at 1. unfold call_RegQueryValueExA at 1. cbn [resize vsize].
  destruct (RegQueryValueExA E _ _) as [[r' n'] src'].
  cbn [vector_store resize vsize].
  replace (Z.max (vsize vData * 3 / 2) nMaxSize >=? nMaxSize) with true
    by (symmetry; rewrite Z.geb_leb; apply Z.leb_le; lia).
  rewrite orb_true_r. unfold ret.
  eexists _, _, _, _. split; [|split].
  - rewrite (emit_as_emits _ w), emit_emits. reflexivity.
  - reflexivity.
  - cbn [vsize vector_store resize]. lia.
Qed.

Lemma RegQuery_is_perfmon_event (evs : History) :
  Forall (fun e => is_RegQuery e = true) evs ->
  Forall (fun e => perfmon_event e = true) evs.
Proof.
  apply Forall_impl. intros [] H; try discriminate H; reflexivity.
Qed.

(** [RandAddSeedPerfmon] always returns: it first makes the two calls of
    [RandAddSeed] and then only calls of the performance-data scrape. *)
Lemma RandAddSeedPerfmon_returns (E : Env) (fuel : nat) (w : World) :
  (2 <= fuel)%nat ->
  exists evs w',
    RandAddSeedPerfmon E fuel w = Returned tt w' /\
    trace w' = trace w ++ timing_feed E (trace w) ++ evs /\
    Forall (fun e => perfmon_event e = true) evs.
Proof.
  intros Hfuel. unfold RandAddSeedPerfmon. unfold bind at 1.
  rewrite RandAddSeed_eq.
  set (w1 := emits (timing_feed E (trace w)) w).
  assert (H1 : trace w1 = trace w ++ timing_feed E (trace w)) by reflexivity.
  clearbody w1.
  destruct (WIN32 E).
  - unfold bind at 1. unfold call_GetTime at 1.
    set (t := GetTime E (trace w1)). unfold bind at 1.
    destruct (t <? nLastPerfmon (emit (EvGetTime t) w1) + 10 * 60).
    + exists [EvGetTime t]. eexists. split; [reflexivity|].
      split; [cbn [trace emit]; rewrite H1; now rewrite <- app_assoc|].
      repeat constructor.
    + unfold bind at 1. unfold call_GetTime at 1.
      set (w2 := emit (EvGetTime t) w1).
      set (t' := GetTime E (trace w2)).
      unfold bind at 1. unfold bind at 1.
      set (w3 := set_nLastPerfmon t' (emit (EvGetTime t') w2)).
      destruct (RandAddSeedPerfmon_loop_returns E fuel (vector_fill 250000 Byte.x00)
                  w3 Hfuel) as (v & r & n & evs & Heq & Hall).
      rewrite Heq. apply RegQuery_is_perfmon_event in Hall.
      assert (H3 : trace (emits evs w3)
                   = trace w ++ timing_feed E (trace w) ++ [EvGetTime t; EvGetTime t'] ++ evs).
      { subst w3 w2. cbn [trace emit emits set_nLastPerfmon].
        rewrite H1. now rewrite <- !app_assoc. }
      unfold bind at 1. unfold call_RegCloseKey, log.
      destruct (r =? ERROR_SUCCESS).
      * eexists. eexists. split; [reflexivity|]. split.
        -- cbn [trace emit]. rewrite H3. rewrite <- !app_assoc. reflexivity.
        -- repeat (apply Forall_app; split); try assumption; repeat constructor.
      * unfold bind at 1.
        destruct (negb (warned (emit EvRegCloseKey (emits evs w3)))).
        -- eexists. eexists. split; [reflexivity|]. split.
           ++ cbn [trace emit set_warned]. rewrite H3. rewrite <- !app_assoc. reflexivity.
           ++ repeat (apply Forall_app; split); try assumption; repeat constructor.
        -- eexists. eexists. split; [reflexivity|]. split.
           ++ cbn [trace emit]. rewrite H3. rewrite <- !app_assoc. reflexivity.
           ++ repeat (apply Forall_app; split); try assumption; repeat constructor.
  - exists [], w1. split; [reflexivity|]. split; [now rewrite app_nil_r|constructor].
Qed.

(** ** The strong byte generator *)

Section Strong.

Variable E : Env.
Variable SHA512 : list byte -> list byte.
Hypothesis SHA512_size : forall m, length (SHA512 m) = 64%nat.

Lemma GetStrongRandBytes_assert (fuel : nat) (out : list byte) (num : Z) (w : World) :
  32 < num -> GetStrongRandBytes E SHA512 fuel out num w = AssertFailed w.
Proof.
  intros H. unfold GetStrongRandBytes, bind, assert.
  apply Z.leb_gt in H. now rewrite H.
Qed.

(** A call that passes the assertion, up to the draw from the generator:
    the seed mixer returns in a world [w1], [RAND_bytes E] is asked for
    32 bytes there, and the call goes on to the OS source, the hash and
    [memcpy] only if the answer is 1. *)
Lemma GetStrongRandBytes_eq (fuel : nat) (out : list byte) (num : Z) (w : World) :
  (2 <= fuel)%nat ->
  num <= 32 ->
  exists perf w1,
    RandAddSeedPerfmon E fuel w = Returned tt w1 /\
    trace w1 = trace w ++ timing_feed E (trace w) ++ perf /\
    Forall (fun e => perfmon_event e = true) perf /\
    GetStrongRandBytes E SHA512 fuel out num w =
    let r := fst (RAND_bytes E (trace w1) 32) in
    let A := take_bytes (snd (RAND_bytes E (trace w1) 32)) 32 in
    let buf1 := write_at (take_bytes (uninit E (trace w)) 64) 0 A in
    if r =? 1 then
      (buf2 <- GetOSRand E fuel buf1 ;;
       let buf3 := write_at buf2 0 (SHA512 (A ++ firstn 32 buf2)) in
       out' <- memcpy out buf3 (to_uint64 num) ;;
       ret (out', memory_cleanse buf3 64)) (emits [EvRAND_bytes 32 1 A] w1)
    else Aborted (emits ([EvRAND_bytes 32 r A] ++ RandFailure_events) w1).
Proof.
  intros Hfuel Hnum.
  destruct (RandAddSeedPerfmon_returns E fuel w Hfuel) as (perf & w1 & HP & Hw1 & Hperf).
  exists perf, w1. split; [exact HP|]. split; [exact Hw1|]. split; [exact Hperf|].
  unfold GetStrongRandBytes.
  unfold bind at 1. unfold assert.
  replace (num <=? 32) with true by (symmetry; apply Z.leb_le; lia).
  unfold bind at 1. unfold uninitialized.
  set (buf0 := take_bytes (uninit E (trace w)) 64).
  assert (Hb0 : length buf0 = 64%nat) by apply length_take_bytes.
  unfold bind at 1. rewrite HP.
  unfold bind at 1. rewrite GetRandBytes_eq. cbv zeta.
  change (Z.to_nat 32) with 32%nat.
  set (r := fst (RAND_bytes E (trace w1) 32)).
  set (A := take_bytes (snd (RAND_bytes E (trace w1) 32)) 32).
  assert (HA : length A = 32%nat) by apply length_take_bytes.
  destruct (r =? 1) eqn:Hr; [|reflexivity].
  apply Z.eqb_eq in Hr. rewrite Hr.
  assert (Hf1 : firstn 32 (write_at buf0 0 A) = A).
  { rewrite firstn_write_at_0 by lia. apply firstn_all2. lia. }
  rewrite Hf1. unfold Finalize, Write, CSHA512_init. cbn [message app].
  reflexivity.
Qed.

(** A call with [0 <= num <= 32] and room for [num] bytes in [out].
    With [A] the 32 bytes [RAND_bytes E] answers after the seed mixer and
    [B] the 32 bytes the OS source of [E] delivers after that: when the
    call returns, [out] starts with the first [num] bytes of the hash of
    [A ++ B] and the local buffer is all zero; it aborts when the
    generator or the OS source fails; its behaviour is undefined when a
    read of the OS source overflows the sum of the guard. *)
Lemma GetStrongRandBytes_spec (fuel : nat) (out : list byte) (num : Z) (w : World) :
  (32 <= fuel)%nat ->
  0 <= num <= 32 ->
  num <= Z.of_nat (length out) ->
  exists perf w1,
    RandAddSeedPerfmon E fuel w = Returned tt w1 /\
    trace w1 = trace w ++ timing_feed E (trace w) ++ perf /\
    Forall (fun e => perfmon_event e = true) perf /\
    let r := fst (RAND_bytes E (trace w1) 32) in
    let A := take_bytes (snd (RAND_bytes E (trace w1) 32)) 32 in
    let w2 := emits [EvRAND_bytes 32 r A] w1 in
    match GetStrongRandBytes E SHA512 fuel out num w with
    | Returned (out', buf) w' =>
        r = 1 /\
        exists B os,
          GetOSRand_success E (trace w2) os B /\
          length B = 32%nat /\
          out' = firstn (Z.to_nat num) (SHA512 (A ++ B)) ++ skipn (Z.to_nat num) out /\
          buf = repeat Byte.x00 64 /\
          w' = emits os w2
    | Aborted w' =>
        (r <> 1 /\ w' = emits RandFailure_events w2) \/
        (r = 1 /\
         exists os,
           GetOSRand_failure E (trace w2) os /\
           w' = emits (os ++ RandFailure_events) w2)
    | Undefined w' =>
        r = 1 /\
        exists os,
          GetOSRand_overflow E (trace w2) os /\
          w' = emits os w2
    | OutOfFuel _ | AssertFailed _ => False
    end.
Proof.
  intros Hfuel Hnum Hout.
  destruct (GetStrongRandBytes_eq fuel out num w ltac:(lia) ltac:(lia))
    as (perf & w1 & HP & Hw1 & Hperf & ->).
  exists perf, w1. split; [exact HP|]. split; [exact Hw1|]. split; [exact Hperf|].
  cbv zeta.
  set (r := fst (RAND_bytes E (trace w1) 32)).
  set (A := take_bytes (snd (RAND_bytes E (trace w1) 32)) 32).
  set (buf1 := write_at _ 0 A).
  assert (HA : length A = 32%nat) by apply length_take_bytes.
  destruct (r =? 1) eqn:Hr.
  - apply Z.eqb_eq in Hr. rewrite Hr. unfold bind at 1.
    pose proof (GetOSRand_spec E fuel buf1 (emits [EvRAND_bytes 32 1 A] w1) Hfuel) as S.
    destruct (GetOSRand E fuel buf1 _) as [buf2 w3|w3|w3|w3|w3]; try exact S.
    + destruct S as (B & os & HB & -> & Hos & ->).
      assert (Hb1 : length buf1 = 64%nat).
      { subst buf1. rewrite length_write_at_0; rewrite length_take_bytes; lia. }
      assert (Hf2 : firstn 32 (B ++ skipn 32 buf1) = B).
      { rewrite firstn_app, firstn_all2 by lia.
        replace (32 - length B)%nat with 0%nat by lia. cbn [firstn]. apply app_nil_r. }
      rewrite Hf2. set (digest := SHA512 (A ++ B)).
      assert (Hd : length digest = 64%nat) by apply SHA512_size.
      rewrite (write_at_whole (B ++ skipn 32 buf1) digest)
        by (rewrite length_app, length_skipn; lia).
      unfold bind at 1. unfold memcpy.
      rewrite to_uint64_small by (unfold UINT64_MAX; lia).
      replace (num <=? Z.of_nat (length digest)) with true
        by (symmetry; apply Z.leb_le; lia).
      replace (num <=? Z.of_nat (length out)) with true
        by (symmetry; apply Z.leb_le; lia).
      cbn [andb]. unfold ret.
      split; [reflexivity|]. exists B, os. repeat split; auto.
      * unfold write_at. cbn [firstn app Nat.add]. f_equal. f_equal.
        rewrite length_firstn. lia.
      * now apply memory_cleanse_whole.
    + right. split; [reflexivity|]. exact S.
    + split; [reflexivity|]. exact S.
  - apply Z.eqb_neq in Hr. left. split; [exact Hr|].
    now rewrite emits_emits.
Qed.

(** A call with a negative [num]: when the generator and the OS source
    have answered, [memcpy] is reached with the length [2^64 + num],
    beyond the 64 bytes of the buffer. *)
Lemma GetStrongRandBytes_negative (fuel : nat) (out : list byte) (num : Z) (w : World) :
  (32 <= fuel)%nat ->
  INT_MIN <= num < 0 ->
  exists perf w1,
    RandAddSeedPerfmon E fuel w = Returned tt w1 /\
    trace w1 = trace w ++ timing_feed E (trace w) ++ perf /\
    Forall (fun e => perfmon_event e = true) perf /\
    let r := fst (RAND_bytes E (trace w1) 32) in
    let A := take_bytes (snd (RAND_bytes E (trace w1) 32)) 32 in
    let w2 := emits [EvRAND_bytes 32 r A] w1 in
    match GetStrongRandBytes E SHA512 fuel out num w with
    | Undefined w' =>
        r = 1 /\
        exists os,
          w' = emits os w2 /\
          (GetOSRand_overflow E (trace w2) os \/
           exists B,
             GetOSRand_success E (trace w2) os B /\
             length B = 32%nat /\
             to_uint64 num = 2 ^ 64 + num /\
             memcpy out (SHA512 (A ++ B)) (2 ^ 64 + num) w' = Undefined w')
    | Aborted w' =>
        (r <> 1 /\ w' = emits RandFailure_events w2) \/
        (r = 1 /\
         exists os,
           GetOSRand_failure E (trace w2) os /\
           w' = emits (os ++ RandFailure_events) w2)
    | Returned _ _ | OutOfFuel _ | AssertFailed _ => False
    end.
Proof.
  intros Hfuel Hnum.
  destruct (GetStrongRandBytes_eq fuel out num w ltac:(lia) ltac:(lia))
    as (perf & w1 & HP & Hw1 & Hperf & ->).
  exists perf, w1. split; [exact HP|]. split; [exact Hw1|]. split; [exact Hperf|].
  cbv zeta.
  set (r := fst (RAND_bytes E (trace w1) 32)).
  set (A := take_bytes (snd (RAND_bytes E (trace w1) 32)) 32).
  set (buf1 := write_at _ 0 A).
  assert (HA : length A = 32%nat) by apply length_take_bytes.
  destruct (r =? 1) eqn:Hr.
  - apply Z.eqb_eq in Hr. rewrite Hr. unfold bind at 1.
    pose proof (GetOSRand_spec E fuel buf1 (emits [EvRAND_bytes 32 1 A] w1) Hfuel) as S.
    destruct (GetOSRand E fuel buf1 _) as [buf2 w3|w3|w3|w3|w3]; try exact S.
    + destruct S as (B & os & HB & -> & Hos & ->).
      assert (Hb1 : length buf1 = 64%nat).
      { subst buf1. rewrite length_write_at_0; rewrite length_take_bytes; lia. }
      assert (Hf2 : firstn 32 (B ++ skipn 32 buf1) = B).
      { rewrite firstn_app, firstn_all2 by lia.
        replace (32 - length B)%nat with 0%nat by lia. cbn [firstn]. apply app_nil_r. }
      rewrite Hf2. set (digest := SHA512 (A ++ B)).
      assert (Hd : length digest = 64%nat) by apply SHA512_size.
      rewrite (write_at_whole (B ++ skipn 32 buf1) digest)
        by (rewrite length_app, length_skipn; lia).
      assert (Hbig : (2 ^ 64 + num <=? Z.of_nat (length digest)) = false).
      { apply Z.leb_gt. rewrite Hd. unfold INT_MIN in Hnum.
        change (2 ^ 31) with 2147483648 in Hnum.
        change (2 ^ 64) with 18446744073709551616. lia. }
      unfold bind at 1. unfold memcpy.
      rewrite to_uint64_negative by exact Hnum. rewrite Hbig. cbn [andb].
      unfold undefined.
      split; [reflexivity|]. eexists. split; [reflexivity|].
      right. exists B. split; [exact Hos|]. split; [exact HB|].
      split; [reflexivity|].
      unfold memcpy. fold digest. rewrite Hbig. reflexivity.
    + right. split; [reflexivity|]. exact S.
    + split; [reflexivity|].
      destruct S as (os & Hos & ->). exists os. split; [reflexivity|]. now left.
  - apply Z.eqb_neq in Hr. left. split; [exact Hr|].
    now rewrite emits_emits.
Qed.

End Strong.


(** C2: [GetRand 0] returns exactly 0; for a bound [nMax > 0] a value
    that [GetRand nMax] returns lies in [[0, nMax)] and is [v mod nMax]
    for the accepted draw [v], which is below
    [floor(UINT64_MAX / nMax) * nMax] and is the last of the draws made.
    The call can otherwise only abort, at a failed [RAND_bytes], or be
    still drawing after [fuel] draws that were all rejected; once it has
    come to an end, more fuel does not change the outcome. *)
Theorem GetRand_in_range (E : Env) (fuel : nat) (w : World) :
  GetRand E fuel 0 w = Returned 0 w /\
  forall nMax : Z,
    0 < nMax <= UINT64_MAX ->
    let limit := UINT64_MAX / nMax * nMax in
    match GetRand E fuel nMax w with
    | Returned r w' =>
        0 <= r < nMax /\
        exists rejected v,
          Forall (fun x => limit <= decode E x) rejected /\
          0 <= decode E v < limit /\
          r = decode E v mod nMax /\
          w' = emits (draw_events 8 (rejected ++ [v])) w
    | Aborted w' =>
        exists rejected r data,
          r <> 1 /\
          w' = emits (draw_events 8 rejected ++
                      [EvRAND_bytes 8 r data] ++ RandFailure_events) w
    | OutOfFuel w' =>
        exists rejected,
          Forall (fun x => limit <= decode E x) rejected /\
          length rejected = fuel /\
          w' = emits (draw_events 8 rejected) w
    | AssertFailed _ | Undefined _ => False
    end /\
    forall fuel',
      (fuel <= fuel')%nat -> finished (GetRand E fuel nMax w) ->
      GetRand E fuel' nMax w = GetRand E fuel nMax w.
Proof.
  split; [apply GetRand_0|].
  intros nMax HM limit. subst limit.
  split; [|intros fuel'; apply GetRand_more_fuel].
  rewrite <- (nRange_eq nMax HM).
  pose proof (GetRand_spec E fuel nMax w HM) as S.
  destruct (GetRand E fuel nMax w) as [r w'|w'|w'| |w']; try exact S.
  destruct S as (rej & r & data & _ & Hr & Hw). eauto.
Qed.

(** On [posix1] the first draw is rejected and the second, 47, gives
    [47 mod 10]. *)
Lemma GetRand_in_range_witness :
  0 < 10 <= UINT64_MAX /\
  exists r w', GetRand posix1 5 10 w0 = Returned r w' /\ 0 <= r < 10.
Proof.
  assert (H10 : 0 < 10 <= UINT64_MAX) by (unfold UINT64_MAX; lia).
  split; [exact H10|].
  pose proof (proj2 (GetRand_in_range posix1 5 w0) 10 H10) as H.
  cbv zeta in H. destruct H as [H _].
  destruct (GetRand posix1 5 10 w0) as [r w'|w'|w'| |w'] eqn:G;
    try (vm_compute in G; discriminate G).
  exists r, w'. split; [reflexivity|exact (proj1 H)].
Defined.

(** C8: [GetRandBytes] returns normally exactly when [RAND_bytes]
    answered 1, and then the buffer holds the bytes of that one call; on
    any other answer the process is ended by [RandFailure] (diagnostic,
    then [abort]) after that single call: no second call is made and no
    value is returned in its place. *)
Theorem GetRandBytes_success_or_abort (E : Env) (buf : list byte) (num : Z) (w : World) :
  let r := fst (RAND_bytes E (trace w) num) in
  let data := take_bytes (snd (RAND_bytes E (trace w) num)) (Z.to_nat num) in
  (r = 1 ->
   GetRandBytes E buf num w =
   Returned (write_at buf 0 data) (emits [EvRAND_bytes num 1 data] w)) /\
  (r <> 1 ->
   GetRandBytes E buf num w =
   Aborted (emits [EvRAND_bytes num r data;
                   EvLogPrintf "Failed to read randomness, aborting";
                   EvAbort] w)) /\
  ((exists out w', GetRandBytes E buf num w = Returned out w') <-> r = 1).
Proof.
  intros r data.
  pose proof (GetRandBytes_eq E buf num w) as G. cbv zeta in G.
  fold r data in G.
  destruct (r =? 1) eqn:Hr.
  - apply Z.eqb_eq in Hr. repeat split.
    + intros _. rewrite G. now rewrite Hr.
    + intros Hne. contradiction.
    + intros _. exact Hr.
    + intros _. rewrite G. eauto.
  - apply Z.eqb_neq in Hr. repeat split.
    + intros He. contradiction.
    + intros _. exact G.
    + intros (out & w' & Ho). rewrite G in Ho. discriminate Ho.
    + intros He. contradiction.
Qed.

(** On [posix1] the first answer of the generator is a success. *)
Lemma GetRandBytes_success_or_abort_witness :
  exists out w', GetRandBytes posix1 [Byte.x00; Byte.x00] 2 w0 = Returned out w'.
Proof.
  apply (proj2 (proj2 (GetRandBytes_success_or_abort posix1 [Byte.x00; Byte.x00] 2 w0))).
  reflexivity.
Defined.

(** C7: in deterministic mode the constructor sets both lanes to 11 and
    makes no external call, whatever the environment; so two instances
    constructed in deterministic mode, on any two machines, have the same
    state and give the same outputs for the same sequence of calls. *)
Theorem FastRandomContext_deterministic_two_runs
    (E1 E2 : Env) (fuel1 fuel2 : nat) (w1 w2 : World) :
  FastRandomContext_ctor E1 fuel1 true w1 = Returned {| Rz := 11; Rw := 11 |} w1 /\
  FastRandomContext_ctor E2 fuel2 true w2 = Returned {| Rz := 11; Rw := 11 |} w2 /\
  forall ctx1 ctx2 w1' w2',
    FastRandomContext_ctor E1 fuel1 true w1 = Returned ctx1 w1' ->
    FastRandomContext_ctor E2 fuel2 true w2 = Returned ctx2 w2' ->
    ctx1 = ctx2 /\
    forall (Out : Type) (calls : list (FastRandomContext -> Out * FastRandomContext)),
      run_calls calls ctx1 = run_calls calls ctx2.
Proof.
  split; [reflexivity|]. split; [reflexivity|].
  intros ctx1 ctx2 w1' w2' H1 H2.
  rewrite FastRandomContext_ctor_deterministic in H1, H2.
  injection H1 as <- _. injection H2 as <- _.
  split; reflexivity.
Qed.

Lemma draws_from_app (E : Env) (num : Z) (a b : list (list byte)) :
  forall h,
    draws_from E num h a ->
    draws_from E num (h ++ draw_events num a) b ->
    draws_from E num h (a ++ b).
Proof.
  induction a as [|d a IH]; intros h Ha Hb.
  - cbn in Hb. now rewrite app_nil_r in Hb.
  - inversion Ha as [|h' d' rest H1 H2 H3]; subst.
    cbn [app]. apply draws_next; [exact H1|reflexivity|].
    apply IH; [exact H3|].
    cbn [draw_events map] in Hb. rewrite <- app_assoc. exact Hb.
Qed.

(** The draw loop again, with its draws tied to the generator of [E]:
    every draw, rejected or returned, is what [RAND_bytes E] answers to
    the history as it is at that call, and the call that makes the loop
    abort is the next call of [RAND_bytes E]. *)
Lemma draw_loop_env (E : Env) (n : nat) (cond : list byte -> bool) (fuel : nat) :
  forall (buf : list byte) (w : World),
    length buf = n ->
    match do_while fuel (fun x => GetRandBytes E x (Z.of_nat n)) cond buf w with
    | Returned d w' =>
        exists rej,
          Forall (fun x => cond x = true /\ length x = n) rej /\
          cond d = false /\ length d = n /\
          draws_from E (Z.of_nat n) (trace w) (rej ++ [d]) /\
          w' = emits (draw_events (Z.of_nat n) (rej ++ [d])) w
    | Aborted w' =>
        exists rej,
          Forall (fun x => cond x = true /\ length x = n) rej /\
          draws_from E (Z.of_nat n) (trace w) rej /\
          let h := trace w ++ draw_events (Z.of_nat n) rej in
          let r := fst (RAND_bytes E h (Z.of_nat n)) in
          let data := take_bytes (snd (RAND_bytes E h (Z.of_nat n))) n in
          r <> 1 /\
          w' = emits (draw_events (Z.of_nat n) rej ++
                      [EvRAND_bytes (Z.of_nat n) r data] ++ RandFailure_events) w
    | OutOfFuel w' =>
        exists rej,
          Forall (fun x => cond x = true /\ length x = n) rej /\
          length rej = fuel /\
          draws_from E (Z.of_nat n) (trace w) rej /\
          w' = emits (draw_events (Z.of_nat n) rej) w
    | AssertFailed _ | Undefined _ => False
    end.
Proof.
  induction fuel as [|fuel IH]; intros buf w Hlen.
  - cbn. exists []. cbn. rewrite emits_nil. repeat split; auto. constructor.
  - cbn [do_while]. unfold bind at 1. rewrite GetRandBytes_eq. cbv zeta.
    rewrite Nat2Z.id.
    set (r := fst (RAND_bytes E (trace w) (Z.of_nat n))).
    set (data := take_bytes _ _).
    assert (Hdata : length data = n).
    { subst data. now rewrite length_take_bytes. }
    destruct (r =? 1) eqn:Hr.
    + apply Z.eqb_eq in Hr. rewrite Hr.
      rewrite write_at_whole by congruence.
      assert (Hnext : forall rest,
                 draws_from E (Z.of_nat n)
                   (trace (emits [EvRAND_bytes (Z.of_nat n) 1 data] w)) rest ->
                 draws_from E (Z.of_nat n) (trace w) (data :: rest)).
      { intros rest Hrest. apply draws_next; [exact Hr| |exact Hrest].
        subst data. now rewrite Nat2Z.id. }
      destruct (cond data) eqn:Hc.
      * specialize (IH data (emits [EvRAND_bytes (Z.of_nat n) 1 data] w) Hdata).
        destruct (do_while fuel _ cond data _) as [d w'|w'|w'|w'|w']; try exact IH.
        -- destruct IH as (rej & Hrej & Hd & Hl & Hdr & ->).
           exists (data :: rej). repeat split; auto.
           ++ apply Hnext. exact Hdr.
           ++ now rewrite emits_emits.
        -- destruct IH as (rej & Hrej & Hdr & IH). cbv zeta in IH.
           destruct IH as (Hr' & ->).
           exists (data :: rej). split; [auto|]. split; [now apply Hnext|].
           cbv zeta. cbn [draw_events map trace emits] in *.
           rewrite <- !app_assoc in *. cbn [app] in *.
           split; [exact Hr'|]. rewrite emits_emits. reflexivity.
        -- destruct IH as (rej & Hrej & Hl & Hdr & ->).
           exists (data :: rej). repeat split; auto.
           ++ cbn. now rewrite Hl.
           ++ now rewrite emits_emits.
      * exists []. repeat split; auto. apply Hnext. constructor.
    + apply Z.eqb_neq in Hr.
      exists []. split; [constructor|]. split; [constructor|].
      cbv zeta. cbn [draw_events map app]. rewrite app_nil_r.
      fold r. split; [exact Hr|]. reflexivity.
Qed.

(** C6: when the constructor returns in non-deterministic mode, [Rz] is
    neither 0 nor 0x9068ffff and [Rw] is neither 0 nor 0x464fffff.  Each
    lane is the first 32-bit draw from the generator of [E] that is not 0
    and not the lane's constant, every earlier draw of the lane having
    been one of the two: the draws are the answers of [RAND_bytes E], in
    the order of the trace, first those of [Rz] and then those of [Rw].
    The call can otherwise only abort at the first call of [RAND_bytes E]
    that does not answer 1, or be still drawing after [fuel] rejected
    draws of one lane. *)
Theorem FastRandomContext_seed_avoids_fixed_points (E : Env) (fuel : nat) (w : World) :
  let bad_z x := decode E x = 0 \/ decode E x = 0x9068ffff in
  let bad_w x := decode E x = 0 \/ decode E x = 0x464fffff in
  match FastRandomContext_ctor E fuel false w with
  | Returned ctx w' =>
      (Rz ctx <> 0 /\ Rz ctx <> 0x9068ffff) /\
      (Rw ctx <> 0 /\ Rw ctx <> 0x464fffff) /\
      exists rej_z z rej_w v,
        Forall bad_z rej_z /\ Rz ctx = decode E z /\
        Forall bad_w rej_w /\ Rw ctx = decode E v /\
        0 <= Rz ctx < 2 ^ 32 /\ 0 <= Rw ctx < 2 ^ 32 /\
        draws_from E 4 (trace w) ((rej_z ++ [z]) ++ (rej_w ++ [v])) /\
        w' = emits (draw_events 4 (rej_z ++ [z]) ++ draw_events 4 (rej_w ++ [v])) w
  | Aborted w' =>
      exists draws,
        draws_from E 4 (trace w) draws /\
        let h := trace w ++ draw_events 4 draws in
        let r := fst (RAND_bytes E h 4) in
        let data := take_bytes (snd (RAND_bytes E h 4)) 4 in
        r <> 1 /\
        w' = emits (draw_events 4 draws ++
                    [EvRAND_bytes 4 r data] ++ RandFailure_events) w
  | OutOfFuel w' =>
      exists earlier rej,
        (Forall bad_z rej \/ Forall bad_w rej) /\
        length rej = fuel /\
        draws_from E 4 (trace w) (earlier ++ rej) /\
        w' = emits (draw_events 4 (earlier ++ rej)) w
  | AssertFailed _ | Undefined _ => False
  end.
Proof.
  intros bad_z bad_w. subst bad_z bad_w.
  unfold FastRandomContext_ctor, bind, uninitialized.
  set (tmp0 := take_bytes (uninit E (trace w)) 4).
  assert (Hbad : forall c l,
             Forall (fun x => ((decode E x =? 0) || (decode E x =? c)) = true
                              /\ length x = 4%nat) l ->
             Forall (fun x => decode E x = 0 \/ decode E x = c) l).
  { intros c l Hl. eapply Forall_impl; [|exact Hl].
    cbv beta. intros x [Hx _]. apply orb_true_iff in Hx.
    destruct Hx as [Hx|Hx]; apply Z.eqb_eq in Hx; auto. }
  assert (Hgood : forall c x,
             (decode E x =? 0) || (decode E x =? c) = false -> length x = 4%nat ->
             decode E x <> 0 /\ decode E x <> c /\ 0 <= decode E x < 2 ^ 32).
  { intros c x Hx Hl. apply orb_false_iff in Hx. destruct Hx as [H1 H2].
    apply Z.eqb_neq in H1, H2.
    pose proof (decode_range E x) as R. rewrite Hl in R.
    change (256 ^ Z.of_nat 4) with (2 ^ 32) in R. auto. }
  pose proof (draw_loop_env E 4
                (fun tmp => (decode E tmp =? 0) || (decode E tmp =? 0x9068ffff))
                fuel tmp0 w (length_take_bytes _ 4)) as L1.
  change (Z.of_nat 4) with 4 in L1.
  destruct (do_while fuel _ _ tmp0 w) as [z w1|w1|w1|w1|w1]; try exact L1.
  - destruct L1 as (rej_z & Hrz & Hz & Hlz & Hdz & ->).
    pose proof (draw_loop_env E 4
                  (fun tmp => (decode E tmp =? 0) || (decode E tmp =? 0x464fffff))
                  fuel z (emits (draw_events 4 (rej_z ++ [z])) w) Hlz) as L2.
    change (Z.of_nat 4) with 4 in L2.
    destruct (do_while fuel _ _ z _) as [v w2|w2|w2|w2|w2]; try exact L2.
    + destruct L2 as (rej_w & Hrw & Hv & Hlv & Hdw & ->). unfold ret. cbn [Rz Rw].
      destruct (Hgood _ _ Hz Hlz) as (? & ? & ?).
      destruct (Hgood _ _ Hv Hlv) as (? & ? & ?).
      split; [auto|]. split; [auto|].
      exists rej_z, z, rej_w, v. rewrite emits_emits.
      repeat split; auto; try (apply Hbad; assumption); try lia.
      apply draws_from_app; assumption.
    + destruct L2 as (rej_w & Hrw & Hdw & L2). cbv zeta in L2.
      destruct L2 as (Hr & ->).
      exists ((rej_z ++ [z]) ++ rej_w).
      split; [apply draws_from_app; assumption|]. cbv zeta.
      cbn [trace emits] in Hr.
      unfold draw_events in *.
      rewrite (map_app _ (rej_z ++ [z]) rej_w), <- !app_assoc in *.
      split; [exact Hr|].
      unfold emits. cbn [trace nLastPerfmon warned]. now rewrite <- ?app_assoc.
    + destruct L2 as (rej_w & Hrw & Hl & Hdw & ->).
      exists (rej_z ++ [z]), rej_w. split; [right; now apply Hbad|].
      split; [exact Hl|]. split; [apply draws_from_app; assumption|].
      rewrite emits_emits. unfold draw_events. now rewrite <- map_app.
  - destruct L1 as (rej_z & Hrz & Hdz & L1). cbv zeta in L1.
    destruct L1 as (Hr & ->).
    exists rej_z. split; [exact Hdz|]. cbv zeta. auto.
  - destruct L1 as (rej_z & Hrz & Hl & Hdz & ->).
    exists [], rej_z. split; [left; now apply Hbad|]. auto.
Qed.

(** On [posix6] the generator first answers 0 and the constant of [Rz],
    which are drawn again, then 5; then 0 and the constant of [Rw],
    drawn again, then 7. *)
Lemma FastRandomContext_seed_avoids_fixed_points_witness :
  exists w',
    FastRandomContext_ctor posix6 3 false w0 = Returned {| Rz := 5; Rw := 7 |} w' /\
    count_events is_RAND_bytes (trace w') = 6%nat /\
    (5 <> 0 /\ 5 <> 0x9068ffff) /\ (7 <> 0 /\ 7 <> 0x464fffff).
Proof.
  pose proof (FastRandomContext_seed_avoids_fixed_points posix6 3 w0) as H.
  cbv zeta in H.
  assert (C : match FastRandomContext_ctor posix6 3 false w0 with
              | Returned ctx w' =>
                  ctx = {| Rz := 5; Rw := 7 |} /\
                  count_events is_RAND_bytes (trace w') = 6%nat
              | _ => False
              end) by (vm_compute; split; reflexivity).
  destruct (FastRandomContext_ctor posix6 3 false w0) as [ctx w'|w'|w'|w'|w'];
    try contradiction.
  destruct C as [-> C]. exists w'. split; [reflexivity|]. split; [exact C|].
  split; [exact (proj1 H)|exact (proj1 (proj2 H))].
Defined.

(** C10: [GetRandInt nMax] passes [nMax] converted to [uint64_t], that
    is modulo [2^64], to [GetRand] and narrows the result to [int].  For
    [0 < nMax] it is [GetRand nMax] itself, with a result in [[0, nMax)];
    [GetRandInt 0] returns 0; for [nMax < 0] the bound is [2^64 + nMax],
    at least [2^63], every draw below that bound is accepted, and the
    value returned is that draw narrowed to [int]: a negative argument
    is never reported as an error. *)
Theorem GetRandInt_narrowing (E : Env) (fuel : nat) (w : World) :
  GetRandInt E fuel 0 w = Returned 0 w /\
  (forall nMax, INT_MIN <= nMax <= INT_MAX ->
     GetRandInt E fuel nMax w =
     (r <- GetRand E fuel (nMax mod 2 ^ 64) ;; ret (to_int r)) w) /\
  (forall nMax, 0 < nMax <= INT_MAX ->
     GetRandInt E fuel nMax w = GetRand E fuel nMax w /\
     forall r w', GetRandInt E fuel nMax w = Returned r w' ->
                  0 <= r < nMax /\ INT_MIN <= r <= INT_MAX) /\
  (forall nMax, INT_MIN <= nMax < 0 ->
     let bound := 2 ^ 64 + nMax in
     2 ^ 63 <= bound <= UINT64_MAX /\
     nRange bound = bound /\
     match GetRandInt E fuel nMax w with
     | Returned r w' =>
         exists rejected v,
           Forall (fun x => bound <= decode E x) rejected /\
           0 <= decode E v < bound /\
           r = to_int (decode E v) /\
           INT_MIN <= r <= INT_MAX /\
           w' = emits (draw_events 8 (rejected ++ [v])) w
     | Aborted w' =>
         exists rejected r data,
           r <> 1 /\
           w' = emits (draw_events 8 rejected ++
                       [EvRAND_bytes 8 r data] ++ RandFailure_events) w
     | OutOfFuel w' =>
         exists rejected,
           Forall (fun x => bound <= decode E x) rejected /\
           length rejected = fuel /\
           w' = emits (draw_events 8 rejected) w
     | AssertFailed _ | Undefined _ => False
     end).
Proof.
  split; [reflexivity|]. split; [reflexivity|]. split.
  - intros nMax HM.
    assert (HU : 0 < nMax <= UINT64_MAX).
    { unfold INT_MAX, UINT64_MAX in *. lia. }
    assert (Heq : GetRandInt E fuel nMax w = GetRand E fuel nMax w).
    { unfold GetRandInt, bind.
      rewrite to_uint64_small by lia.
      pose proof (GetRand_spec E fuel nMax w HU) as S.
      destruct (GetRand E fuel nMax w) as [r w'|w'|w'| |w']; try reflexivity.
      unfold ret. rewrite to_int_small; [reflexivity|].
      unfold INT_MIN, INT_MAX in *. lia. }
    split; [exact Heq|].
    intros r w' HR. rewrite Heq in HR.
    pose proof (GetRand_spec E fuel nMax w HU) as S. rewrite HR in S.
    unfold INT_MIN, INT_MAX in *. lia.
  - intros nMax HM bound.
    assert (HB : 2 ^ 63 <= bound <= UINT64_MAX).
    { subst bound. unfold INT_MIN, UINT64_MAX in *. lia. }
    assert (HU : 0 < bound <= UINT64_MAX) by lia.
    pose proof (nRange_huge bound HB) as HR.
    split; [exact HB|]. split; [exact HR|].
    unfold GetRandInt, bind. rewrite to_uint64_negative by exact HM.
    fold bound.
    pose proof (GetRand_spec E fuel bound w HU) as S. rewrite HR in S.
    destruct (GetRand E fuel bound w) as [r w'|w'|w'| |w']; try exact S.
    + destruct S as (_ & rej & v & Hrej & Hv & -> & ->). unfold ret.
      exists rej, v. rewrite Z.mod_small by lia.
      repeat split; auto; try lia; apply to_int_range.
    + destruct S as (rej & r & data & _ & Hr & ->). eauto.
Qed.

(** On [posix1], [GetRandInt (-3)] rejects the draw [2^64 - 1], which is
    not below [2^64 - 3], and returns the next draw, 47. *)
Lemma GetRandInt_narrowing_witness :
  INT_MIN <= -3 < 0 /\
  nRange (2 ^ 64 + -3) = 2 ^ 64 + -3 /\
  exists r w', GetRandInt posix1 5 (-3) w0 = Returned r w' /\ INT_MIN <= r <= INT_MAX.
Proof.
  assert (H3 : INT_MIN <= -3 < 0) by (unfold INT_MIN; lia).
  split; [exact H3|].
  pose proof (proj2 (proj2 (proj2 (GetRandInt_narrowing posix1 5 w0))) (-3) H3) as H.
  cbv zeta in H. destruct H as (_ & HR & H).
  split; [exact HR|].
  destruct (GetRandInt posix1 5 (-3) w0) as [r w'|w'|w'| |w'] eqn:G;
    try (vm_compute in G; discriminate G).
  exists r, w'. split; [reflexivity|].
  destruct H as (rej & v & _ & _ & _ & Hr & _). exact Hr.
Defined.

(** C4, as amended: [GetOSRand] either ends the process through
    [RandFailure] (the source cannot be opened, or a read gives zero or
    fewer bytes, or a number [n] of bytes with [n + have > 32], that sum
    being representable in [ssize_t]) or returns with exactly 32 bytes
    stored at the start of the buffer, all of them delivered by the
    source of [E] and the rest of the buffer untouched; it never returns
    less.  The loop needs no more than 32 iterations, since every read
    that is not fatal adds at least one byte.  The one other outcome is a
    read whose answer makes the sum of the guard overflow [ssize_t]:
    about that one nothing is promised. *)
Theorem GetOSRand_fills_32_or_aborts
    (E : Env) (fuel : nat) (ent32 : list byte) (w : World) :
  (32 <= fuel)%nat ->
  match GetOSRand E fuel ent32 w with
  | Returned out w' =>
      exists data evs,
        length data = 32%nat /\
        firstn 32 out = data /\
        skipn 32 out = skipn 32 ent32 /\
        GetOSRand_success E (trace w) evs data /\
        w' = emits evs w
  | Aborted w' =>
      exists evs,
        GetOSRand_failure E (trace w) evs /\
        w' = emits (evs ++ [EvLogPrintf "Failed to read randomness, aborting";
                            EvAbort]) w
  | Undefined w' =>
      exists evs,
        GetOSRand_overflow E (trace w) evs /\
        w' = emits evs w
  | OutOfFuel _ | AssertFailed _ => False
  end.
Proof.
  intros Hfuel.
  pose proof (GetOSRand_spec E fuel ent32 w Hfuel) as S.
  destruct (GetOSRand E fuel ent32 w) as [out w'|w'|w'|w'|w']; try exact S.
  destruct S as (data & evs & Hl & -> & Hs & ->).
  exists data, evs. repeat split; auto.
  - rewrite firstn_app, firstn_all2 by lia.
    replace (32 - length data)%nat with 0%nat by lia.
    cbn [firstn]. apply app_nil_r.
  - rewrite skipn_app, skipn_all2 by lia.
    replace (32 - length data)%nat with 0%nat by lia.
    reflexivity.
Qed.

(** On [posix1] the source delivers 20 bytes, then 12. *)
Lemma GetOSRand_fills_32_or_aborts_witness :
  (32 <= 32)%nat /\
  exists out w',
    GetOSRand posix1 32 (repeat Byte.x01 40) w0 = Returned out w' /\
    firstn 32 out = map u8 (repeat 7 20 ++ repeat 9 12) /\
    skipn 32 out = repeat Byte.x01 8.
Proof.
  split; [lia|].
  pose proof (GetOSRand_fills_32_or_aborts posix1 32 (repeat Byte.x01 40) w0
                (Nat.le_refl 32)) as H.
  destruct (GetOSRand posix1 32 (repeat Byte.x01 40) w0) as [out w'|w'|w'|w'|w'] eqn:G;
    try (vm_compute in G; discriminate G).
  exists out, w'. split; [reflexivity|].
  destruct H as (data & evs & _ & _ & Hs & _).
  split; [|exact Hs].
  vm_compute in G. injection G as <- _. reflexivity.
Defined.

Lemma do_while_step {St : Type} (fuel : nat) (body : St -> M St) (cond : St -> bool)
    (s : St) (w : World) :
  do_while (S fuel) body cond s w =
  match body s w with
  | Returned s' w' => if cond s' then do_while fuel body cond s' w' else Returned s' w'
  | Aborted w' => Aborted w'
  | AssertFailed w' => AssertFailed w'
  | Undefined w' => Undefined w'
  | OutOfFuel w' => OutOfFuel w'
  end.
Proof.
  cbn [do_while]. unfold bind. destruct (body s w); try reflexivity.
  destruct (cond a); reflexivity.
Qed.

(** C4, the claim as stated fails: on [posix5] the device gives 20 bytes
    and then answers [SSIZE_MAX] to the read of the 12 missing bytes, a
    read that would overflow the 32-byte target.  The call does not end
    in [RandFailure] and does not return 32 bytes: the sum
    [n + have] of the guard overflows and the behaviour is undefined. *)
Lemma GetOSRand_overflowing_read_not_fatal :
  32 < SSIZE_MAX + 20 /\
  GetOSRand posix5 32 (repeat Byte.x00 32) w0 =
  Undefined
    (emits [EvOpen 3;
            EvRead 3 32 20 (map u8 (repeat 7 20));
            EvRead 3 12 SSIZE_MAX (take_bytes (bytes_of []) (Z.to_nat SSIZE_MAX))] w0).
Proof.
  split; [reflexivity|].
  unfold GetOSRand. change (WIN32 posix5) with false. cbv iota.
  unfold bind at 1. unfold call_open.
  change (open_urandom posix5 (trace w0)) with 3.
  unfold bind at 1. change (3 =? -1) with false. cbv iota. unfold ret at 1.
  unfold bind at 1.
  change 32%nat with (S 31) at 1. rewrite do_while_step.
  rewrite GetOSRand_body_eq by lia. cbv zeta.
  change (read posix5 (trace (emit (EvOpen 3) w0)) 3 (32 - 0))
    with (20, bytes_of (map u8 (repeat 7 20))).
  cbn [fst snd].
  change (20 <=? 0) with false. cbv iota.
  change ((20 <=? SSIZE_MAX) && (SSIZE_MAX <? 20 + 0)) with false. cbv iota.
  change (20 + 0 >? 32) with false. cbv iota.
  change (snd (write_at (repeat Byte.x00 32) (Z.to_nat 0)
                 (take_bytes (bytes_of (map u8 (repeat 7 20))) (Z.to_nat 20)), 0 + 20)
          <? 32) with true. cbv iota.
  change 31%nat with (S 30) at 1. rewrite do_while_step.
  rewrite GetOSRand_body_eq by lia. cbv zeta.
  change (32 - (0 + 20)) with 12.
  match goal with
  | |- context [read posix5 ?h 3 12] =>
      change (read posix5 h 3 12) with (SSIZE_MAX, bytes_of [])
  end.
  cbn [fst snd].
  change (SSIZE_MAX <=? 0) with false. cbv iota.
  change ((SSIZE_MAX <=? SSIZE_MAX) && (SSIZE_MAX <? SSIZE_MAX + (0 + 20))) with true.
  cbv iota.
  rewrite (emit_as_emits (EvOpen 3) w0), !emits_emits.
  reflexivity.
Qed.

Lemma toy_digest_size (m : list byte) : length (toy_digest m) = 64%nat.
Proof.
  unfold toy_digest. rewrite length_firstn, length_app, repeat_length. lia.
Qed.

(** C3: for [num] in [[0, 32]], when [GetStrongRandBytes] returns, [out]
    holds in its first [num] bytes the first [num] bytes of the SHA-512
    hash of the 64 bytes [A ++ B] and is otherwise unchanged, where [A]
    is the 32 bytes that [RAND_bytes E] answers, with status 1, to the
    call made right after the seed mixer, and [B] is the 32 bytes that
    the OS source of [E] delivers right after that.  The timing feed is
    the first call made, before both draws.  The call ends in
    [RandFailure] when the generator or the OS source fails, and is
    undefined only when a read of the OS source overflows the sum of its
    guard.  A [num] above 32 fails the assertion before any call is
    made. *)
Theorem GetStrongRandBytes_hash_of_both_sources
    (E : Env) (SHA512 : list byte -> list byte)
    (fuel : nat) (out : list byte) (num : Z) (w : World) :
  (forall m, length (SHA512 m) = 64%nat) ->
  (32 <= fuel)%nat ->
  (32 < num -> GetStrongRandBytes E SHA512 fuel out num w = AssertFailed w) /\
  (0 <= num <= 32 -> num <= Z.of_nat (length out) ->
   exists perf w1,
     RandAddSeedPerfmon E fuel w = Returned tt w1 /\
     trace w1 = trace w ++ timing_feed E (trace w) ++ perf /\
     Forall (fun e => perfmon_event e = true) perf /\
     let r := fst (RAND_bytes E (trace w1) 32) in
     let A := take_bytes (snd (RAND_bytes E (trace w1) 32)) 32 in
     let w2 := emits [EvRAND_bytes 32 r A] w1 in
     match GetStrongRandBytes E SHA512 fuel out num w with
     | Returned (out', _) w' =>
         r = 1 /\
         exists B os,
           GetOSRand_success E (trace w2) os B /\
           length A = 32%nat /\ length B = 32%nat /\
           out' = firstn (Z.to_nat num) (SHA512 (A ++ B)) ++ skipn (Z.to_nat num) out /\
           w' = emits os w2
     | Aborted w' =>
         (r <> 1 /\
          w' = emits [EvLogPrintf "Failed to read randomness, aborting"; EvAbort] w2) \/
         (r = 1 /\
          exists os,
            GetOSRand_failure E (trace w2) os /\
            w' = emits (os ++ [EvLogPrintf "Failed to read randomness, aborting";
                               EvAbort]) w2)
     | Undefined w' =>
         r = 1 /\
         exists os,
           GetOSRand_overflow E (trace w2) os /\
           w' = emits os w2
     | OutOfFuel _ | AssertFailed _ => False
     end).
Proof.
  intros Hsize Hfuel. split.
  - apply GetStrongRandBytes_assert.
  - intros Hnum Hout.
    destruct (GetStrongRandBytes_spec E SHA512 Hsize fuel out num w Hfuel Hnum Hout)
      as (perf & w1 & HP & Hw1 & Hperf & S).
    exists perf, w1. split; [exact HP|]. split; [exact Hw1|]. split; [exact Hperf|].
    cbv zeta in *.
    destruct (GetStrongRandBytes E SHA512 fuel out num w) as [[out' buf] w'|w'|w'|w'|w'];
      try exact S.
    destruct S as (Hr & B & os & Hos & HB & Ho & _ & Hw).
    split; [exact Hr|]. exists B, os.
    split; [exact Hos|]. split; [apply length_take_bytes|]. auto.
Qed.

(** On [posix1], with [toy_digest] for the hash, three bytes are asked
    for: they are the first three of the digest of the generator's
    bytes followed by the device's. *)
Lemma GetStrongRandBytes_hash_of_both_sources_witness :
  (forall m, length (toy_digest m) = 64%nat) /\ (32 <= 32)%nat /\
  0 <= 3 <= 32 /\ 3 <= Z.of_nat (length (repeat Byte.x01 4)) /\
  exists out' buf w' h os B,
    GetStrongRandBytes posix1 toy_digest 32 (repeat Byte.x01 4) 3 w0
    = Returned (out', buf) w' /\
    GetOSRand_success posix1 h os B /\
    out' = firstn 3 (toy_digest (map u8 (repeat 255 8 ++ repeat 0 24) ++ B))
           ++ skipn 3 (repeat Byte.x01 4) /\
    out' = map u8 [255; 255; 255; 1].
Proof.
  assert (H3 : 0 <= 3 <= 32) by lia.
  assert (Ho : 3 <= Z.of_nat (length (repeat Byte.x01 4))) by (cbn; lia).
  split; [exact toy_digest_size|]. split; [lia|].
  split; [exact H3|]. split; [exact Ho|].
  destruct (proj2 (GetStrongRandBytes_hash_of_both_sources posix1 toy_digest 32
                     (repeat Byte.x01 4) 3 w0 toy_digest_size (Nat.le_refl 32))
                  H3 Ho) as (perf & w1 & HP & _ & _ & H).
  cbv zeta in H.
  assert (HA : take_bytes (snd (RAND_bytes posix1 (trace w1) 32)) 32
               = map u8 (repeat 255 8 ++ repeat 0 24)).
  { vm_compute in HP. injection HP as <-. reflexivity. }
  rewrite HA in H.
  assert (C : match GetStrongRandBytes posix1 toy_digest 32 (repeat Byte.x01 4) 3 w0 with
              | Returned (out', _) _ => out' = map u8 [255; 255; 255; 1]
              | _ => False
              end) by (vm_compute; reflexivity).
  destruct (GetStrongRandBytes posix1 toy_digest 32 (repeat Byte.x01 4) 3 w0)
    as [[out' buf] w'|w'|w'|w'|w']; try contradiction.
  destruct H as (_ & B & os & Hos & _ & _ & Hout & _).
  exists out', buf, w'. eexists _, os, B.
  split; [reflexivity|]. split; [exact Hos|]. split; [exact Hout|exact C].
Defined.

(** C9, as amended: the two buffers named are scrubbed.  [RandAddSeed]
    returns with the eight bytes of the counter all zero, after the
    counter was fed to the pool by [RAND_add]; [GetStrongRandBytes], when
    it returns, has its 64-byte buffer all zero, after the first [num]
    bytes of the digest of both sources were copied from it to [out].
    This is not so for every temporary: see
    [constructor_leaves_seed_in_tmp]. *)
Theorem sensitive_buffers_scrubbed
    (E : Env) (SHA512 : list byte -> list byte)
    (fuel : nat) (out : list byte) (num : Z) (w : World) :
  (forall m, length (SHA512 m) = 64%nat) ->
  (32 <= fuel)%nat ->
  0 <= num <= 32 ->
  num <= Z.of_nat (length out) ->
  (exists w1,
     RandAddSeed E w = Returned (repeat Byte.x00 8) w1 /\
     trace w1 = trace w ++ timing_feed E (trace w) /\
     exists counter c,
       timing_feed E (trace w) = [counter; EvRAND_add (encode E 8 c) (3 # 2)]) /\
  (forall out' buf w',
     GetStrongRandBytes E SHA512 fuel out num w = Returned (out', buf) w' ->
     buf = repeat Byte.x00 64 /\
     exists w1 os B,
       RandAddSeedPerfmon E fuel w = Returned tt w1 /\
       let A := take_bytes (snd (RAND_bytes E (trace w1) 32)) 32 in
       GetOSRand_success E (trace w1 ++ [EvRAND_bytes 32 1 A]) os B /\
       out' = firstn (Z.to_nat num) (SHA512 (A ++ B)) ++ skipn (Z.to_nat num) out).
Proof.
  intros Hsize Hfuel Hnum Hout. split.
  - exists (emits (timing_feed E (trace w)) w).
    split; [apply RandAddSeed_eq|]. split; [reflexivity|].
    unfold timing_feed. destruct (WIN32 E).
    + eauto.
    + destruct (gettimeofday E (trace w)). eauto.
  - intros out' buf w' G.
    destruct (GetStrongRandBytes_spec E SHA512 Hsize fuel out num w Hfuel Hnum Hout)
      as (perf & w1 & HP & Hw1 & Hperf & S).
    cbv zeta in S. rewrite G in S.
    destruct S as (Hr & B & os & Hos & HB & Ho & Hb & Hw).
    split; [exact Hb|]. exists w1, os, B. split; [exact HP|].
    cbv zeta. rewrite Hr in Hos. split; [exact Hos|exact Ho].
Qed.

Lemma sensitive_buffers_scrubbed_witness :
  (forall m, length (toy_digest m) = 64%nat) /\ (32 <= 32)%nat /\
  0 <= 3 <= 32 /\ 3 <= Z.of_nat (length (repeat Byte.x01 4)) /\
  (exists w1, RandAddSeed posix1 w0 = Returned (repeat Byte.x00 8) w1) /\
  exists out' w',
    GetStrongRandBytes posix1 toy_digest 32 (repeat Byte.x01 4) 3 w0
    = Returned (out', repeat Byte.x00 64) w'.
Proof.
  assert (H3 : 0 <= 3 <= 32) by lia.
  assert (Ho : 3 <= Z.of_nat (length (repeat Byte.x01 4))) by (cbn; lia).
  split; [exact toy_digest_size|]. split; [lia|].
  split; [exact H3|]. split; [exact Ho|].
  destruct (sensitive_buffers_scrubbed posix1 toy_digest 32 (repeat Byte.x01 4) 3 w0
              toy_digest_size (Nat.le_refl 32) H3 Ho) as [H1 H2].
  split.
  - destruct H1 as (w1 & Hw1 & _). exists w1. exact Hw1.
  - destruct (GetStrongRandBytes posix1 toy_digest 32 (repeat Byte.x01 4) 3 w0)
      as [[out' buf] w'|w'|w'|w'|w'] eqn:G;
      try (vm_compute in G; discriminate G).
    destruct (H2 out' buf w' eq_refl) as [Hb _].
    exists out', w'. now rewrite Hb.
Defined.

Lemma FastRandomContext_ctor_locals_ctor (E : Env) (fuel : nat) (fDeterministic : bool)
    (w : World) :
  FastRandomContext_ctor E fuel fDeterministic w =
  (x <- FastRandomContext_ctor_locals E fuel fDeterministic ;; ret (fst x)) w.
Proof.
  unfold FastRandomContext_ctor, FastRandomContext_ctor_locals.
  destruct fDeterministic; [reflexivity|].
  unfold bind, uninitialized.
  destruct (do_while fuel _ _ _ w) as [z w1|w1|w1|w1|w1]; try reflexivity.
  destruct (do_while fuel _ _ z w1) as [v w2|w2|w2|w2|w2]; reflexivity.
Qed.

(** C9, the claim as stated fails: the non-deterministic constructor
    copies each seed into its local [tmp] and returns without scrubbing
    it.  On [posix3] it returns with [tmp] holding the four bytes of the
    seed of [Rw], not zeros. *)
Lemma constructor_leaves_seed_in_tmp :
  exists ctx tmp w',
    FastRandomContext_ctor_locals posix3 1 false w0 = Returned (ctx, tmp) w' /\
    FastRandomContext_ctor posix3 1 false w0 = Returned ctx w' /\
    tmp = map u8 [255; 255; 104; 144] /\
    decode posix3 tmp = Rw ctx /\
    tmp <> repeat Byte.x00 4.
Proof.
  eexists _, _, _. split; [vm_compute; reflexivity|].
  split; [vm_compute; reflexivity|].
  split; [reflexivity|]. split; [reflexivity|]. discriminate.
Qed.

(** C5, on the code: on [win1] the first query, with the 250000-byte
    buffer, answers [ERROR_MORE_DATA]; the buffer is then resized to
    10000000 bytes, the larger of 375000 and the cap, and not to 375000;
    the second query succeeds and ends the loop. *)
Theorem RandAddSeedPerfmon_grows_to_cap_at_once :
  match RandAddSeedPerfmon_loop win1 5 (vector_fill 250000 Byte.x00) w0 with
  | Returned (vData, r, nSize) w' =>
      vsize vData = 10000000 /\
      vsize vData <> 250000 * 3 / 2 /\
      r = ERROR_SUCCESS /\
      trace w' = [EvRegQueryValueExA 250000 ERROR_MORE_DATA 400000;
                  EvRegQueryValueExA 10000000 ERROR_SUCCESS 16]
  | _ => False
  end.
Proof.
  vm_compute. repeat split. discriminate.
Qed.


(** Two instances, one on [posix1] and one on [win1] after some calls,
    give the same outputs to three calls of [toy_method]. *)
Lemma FastRandomContext_deterministic_two_runs_witness :
  exists ctx1 ctx2 w1 w2,
    FastRandomContext_ctor posix1 0 true w0 = Returned ctx1 w1 /\
    FastRandomContext_ctor win1 3 true (emit (EvGetTime 5) w0) = Returned ctx2 w2 /\
    run_calls [toy_method; toy_method; toy_method] ctx1
    = run_calls [toy_method; toy_method; toy_method] ctx2.
Proof.
  destruct (FastRandomContext_deterministic_two_runs
              posix1 win1 0 3 w0 (emit (EvGetTime 5) w0)) as (H1 & H2 & H).
  eexists _, _, _, _. split; [exact H1|]. split; [exact H2|].
  apply (proj2 (H _ _ _ _ H1 H2)).
Defined.

(** * Further properties of random.cpp *)

(** ** The accepted range *)

Lemma nRange_exact (nMax : Z) :
  0 < nMax <= UINT64_MAX ->
  nRange nMax = 2 ^ 64 - (if 2 ^ 64 mod nMax =? 0 then nMax else 2 ^ 64 mod nMax).
Proof.
  intros HM. rewrite nRange_eq by exact HM.
  unfold UINT64_MAX in *.
  pose proof (Z.div_mod (2 ^ 64) nMax ltac:(lia)) as D.
  pose proof (Z.mod_pos_bound (2 ^ 64) nMax ltac:(lia)) as B.
  set (N := 2 ^ 64) in *. set (q := N / nMax) in *. set (m := N mod nMax) in *.
  destruct (m =? 0) eqn:Hm.
  - apply Z.eqb_eq in Hm.
    assert ((N - 1) / nMax = q - 1) as ->; [|nia].
    symmetry. apply Z.div_unique with (r := nMax - 1); nia.
  - apply Z.eqb_neq in Hm.
    assert ((N - 1) / nMax = q) as ->; [|nia].
    symmetry. apply Z.div_unique with (r := m - 1); nia.
Qed.

(** X1: for every bound [nMax > 0] the accepted range of [GetRand] is
    [2^64] minus the remainder of [2^64] by [nMax], except that when
    [nMax] divides [2^64] (a power of two, 1 included) it is
    [2^64 - nMax]: the [nMax] largest values are then rejected although
    reducing them would give no bias, and no call returns after a single
    draw of such a value. *)
Theorem GetRand_rejects_top_values_of_divisors (nMax : Z) :
  0 < nMax <= UINT64_MAX ->
  (2 ^ 64 mod nMax <> 0 -> nRange nMax = 2 ^ 64 - 2 ^ 64 mod nMax) /\
  (2 ^ 64 mod nMax = 0 ->
   nRange nMax = 2 ^ 64 - nMax /\
   forall (E : Env) (fuel : nat) (w : World) (r : Z),
     fst (RAND_bytes E (trace w) 8) = 1 ->
     let d := take_bytes (snd (RAND_bytes E (trace w) 8)) 8 in
     2 ^ 64 - nMax <= decode E d ->
     GetRand E (S fuel) nMax w <> Returned r (emits [EvRAND_bytes 8 1 d] w)).
Proof.
  intros HM. pose proof (nRange_exact nMax HM) as X. split.
  - intros Hm. apply Z.eqb_neq in Hm. now rewrite Hm in X.
  - intros Hm. rewrite Hm in X. cbn [Z.eqb] in X.
    split; [exact X|].
    intros E fuel w r H1 d Hd G.
    apply (GetRand_first_draw E fuel nMax r w HM H1) in G.
    fold d in G. lia.
Qed.

(** For the bound 1 on [posix1], whose first draw is [2^64 - 1]. *)
Lemma GetRand_rejects_top_values_of_divisors_witness :
  0 < 1 <= UINT64_MAX /\ 2 ^ 64 mod 1 = 0 /\
  nRange 1 = 2 ^ 64 - 1 /\
  GetRand posix1 1 1 w0 <>
  Returned 0 (emits [EvRAND_bytes 8 1 (map u8 [255;255;255;255;255;255;255;255])] w0).
Proof.
  assert (H1 : 0 < 1 <= UINT64_MAX) by (unfold UINT64_MAX; lia).
  split; [exact H1|]. split; [reflexivity|].
  destruct (proj2 (GetRand_rejects_top_values_of_divisors 1 H1) eq_refl) as [HR H].
  split; [exact HR|].
  apply (H posix1 0%nat w0 0 eq_refl). vm_compute. discriminate.
Defined.

(** X2: for every bound [nMax > 0] at least half of the 64-bit values
    are accepted and at most [nMax] of them are rejected, and the accepted
    range is a multiple of [nMax]. *)
Theorem GetRand_accepts_at_least_half (nMax : Z) :
  0 < nMax <= UINT64_MAX ->
  2 ^ 63 <= nRange nMax /\
  0 < 2 ^ 64 - nRange nMax <= nMax /\
  nRange nMax mod nMax = 0.
Proof.
  intros HM. pose proof (nRange_exact nMax HM) as X.
  pose proof (nRange_bounds nMax HM) as B.
  pose proof (Z.mod_pos_bound (2 ^ 64) nMax ltac:(lia)) as R.
  assert (Hrej : 0 < 2 ^ 64 - nRange nMax <= nMax).
  { destruct (2 ^ 64 mod nMax =? 0) eqn:Hm.
    - lia.
    - apply Z.eqb_neq in Hm. lia. }
  split; [|split; [exact Hrej|]].
  - destruct (Z_le_gt_dec nMax (2 ^ 63)); [lia|].
    unfold UINT64_MAX in *. lia.
  - rewrite (nRange_multiple nMax HM) at 1. apply Z.mod_mul. lia.
Qed.

Lemma GetRand_accepts_at_least_half_witness :
  0 < 10 <= UINT64_MAX /\ 2 ^ 63 <= nRange 10 /\ 0 < 2 ^ 64 - nRange 10 <= 10.
Proof.
  assert (H10 : 0 < 10 <= UINT64_MAX) by (unfold UINT64_MAX; lia).
  split; [exact H10|].
  destruct (GetRand_accepts_at_least_half 10 H10) as (H1 & H2 & _).
  split; [exact H1|exact H2].
Defined.

(** ** Integer objects and their bytes *)

Lemma byte_to_of_Z (z : Z) : byte_to_Z (byte_of_Z z) = z mod 256.
Proof.
  unfold byte_to_Z, byte_of_Z.
  pose proof (Z.mod_pos_bound z 256 ltac:(lia)) as B.
  destruct (Byte.of_N (Z.to_N (z mod 256))) as [x|] eqn:H.
  - apply Byte.to_of_N in H. rewrite H. lia.
  - apply Byte.of_N_None_iff in H. lia.
Qed.

Lemma le_decode_encode (n : nat) (z : Z) :
  le_decode (le_encode n z) = z mod 256 ^ Z.of_nat n.
Proof.
  revert z. induction n as [|n IH]; intros z.
  - cbn. now rewrite Z.mod_1_r.
  - cbn [le_encode le_decode]. rewrite IH, byte_to_of_Z.
    rewrite Nat2Z.inj_succ, Z.pow_succ_r by lia.
    rewrite Z.rem_mul_r by lia. reflexivity.
Qed.

Lemma decode_encode (E : Env) (n : nat) (z : Z) :
  decode E (encode E n z) = z mod 256 ^ Z.of_nat n.
Proof.
  unfold decode, encode. destruct (big_endian E).
  - rewrite rev_involutive. apply le_decode_encode.
  - apply le_decode_encode.
Qed.

Lemma to_int64_range (z : Z) : - 2 ^ 63 <= to_int64 z < 2 ^ 63.
Proof.
  unfold to_int64, to_sint.
  change (2 ^ (64 - 1)) with (2 ^ 63).
  pose proof (Z.mod_pos_bound (z + 2 ^ 63) (2 ^ 64) ltac:(lia)). lia.
Qed.

Lemma to_int64_small (z : Z) : - 2 ^ 63 <= z < 2 ^ 63 -> to_int64 z = z.
Proof.
  unfold to_int64, to_sint. change (2 ^ (64 - 1)) with (2 ^ 63).
  intros H. rewrite Z.mod_small by lia. lia.
Qed.

Lemma to_int64_mod (z : Z) : to_int64 (z mod 2 ^ 64) = to_int64 z.
Proof.
  unfold to_int64, to_sint. change (2 ^ (64 - 1)) with (2 ^ 63).
  now rewrite Z.add_mod_idemp_l by lia.
Qed.

(** ** The seed mixer *)

Lemma GetPerformanceCounter_posix (E : Env) (w : World) :
  WIN32 E = false ->
  GetPerformanceCounter E w =
  Returned (to_int64 (fst (gettimeofday E (trace w)) * 1000000
                      + snd (gettimeofday E (trace w))))
           (emit (EvGettimeofday (fst (gettimeofday E (trace w)))
                                 (snd (gettimeofday E (trace w)))) w).
Proof.
  intros HW. unfold GetPerformanceCounter, bind, call_gettimeofday. rewrite HW.
  destruct (gettimeofday E (trace w)) as [sec usec]. reflexivity.
Qed.

(** X3: on a POSIX machine [GetPerformanceCounter] gives
    [tv_sec * 1000000 + tv_usec] without wrap-around for every time of
    day with [0 <= tv_sec < 2^43] and [0 <= tv_usec < 1000000]; so of two
    calls the one that reads the later time of day returns the strictly
    larger counter. *)
Theorem GetPerformanceCounter_increases_with_time
    (E : Env) (w1 w2 : World) (sec1 usec1 sec2 usec2 : Z) :
  WIN32 E = false ->
  gettimeofday E (trace w1) = (sec1, usec1) ->
  gettimeofday E (trace w2) = (sec2, usec2) ->
  0 <= sec1 -> sec2 < 2 ^ 43 ->
  0 <= usec1 < 1000000 -> 0 <= usec2 < 1000000 ->
  sec1 < sec2 \/ (sec1 = sec2 /\ usec1 < usec2) ->
  GetPerformanceCounter E w1 =
    Returned (sec1 * 1000000 + usec1) (emit (EvGettimeofday sec1 usec1) w1) /\
  GetPerformanceCounter E w2 =
    Returned (sec2 * 1000000 + usec2) (emit (EvGettimeofday sec2 usec2) w2) /\
  sec1 * 1000000 + usec1 < sec2 * 1000000 + usec2.
Proof.
  intros HW H1 H2 Hs1 Hs2 Hu1 Hu2 Hlt.
  change (2 ^ 43) with 8796093022208 in Hs2.
  rewrite !GetPerformanceCounter_posix by exact HW.
  rewrite H1, H2. cbn [fst snd].
  rewrite !to_int64_small
    by (change (2 ^ 63) with 9223372036854775808; lia).
  repeat split; lia.
Qed.

(** On [posix2] the time of day advances with every call made. *)
Lemma GetPerformanceCounter_increases_with_time_witness :
  exists c1 c2 w1' w2',
    GetPerformanceCounter posix2 w0 = Returned c1 w1' /\
    GetPerformanceCounter posix2 (emit (EvClose 4) w0) = Returned c2 w2' /\
    c1 < c2.
Proof.
  destruct (GetPerformanceCounter_increases_with_time
              posix2 w0 (emit (EvClose 4) w0)
              1700000000 999999 1700000001 999999
              eq_refl eq_refl eq_refl)
    as (H1 & H2 & Hlt); try lia.
  eexists _, _, _, _. split; [exact H1|]. split; [exact H2|exact Hlt].
Defined.

(** X4: the eight bytes that [RandAddSeed] gives to [RAND_add], with
    weight 3/2, are the object representation of the counter that
    [GetPerformanceCounter] returned: read back as a 64-bit integer they
    give that counter, on either byte order; this is the only call made
    after the counter was read. *)
Theorem RandAddSeed_feeds_the_counter (E : Env) (w : World) :
  exists (c : Z) (w1 : World) (data : list byte),
    GetPerformanceCounter E w = Returned c w1 /\
    RandAddSeed E w = Returned (repeat Byte.x00 8) (emit (EvRAND_add data (3 # 2)) w1) /\
    length data = 8%nat /\
    to_int64 (decode E data) = c.
Proof.
  unfold RandAddSeed, bind.
  assert (H : exists c w1, GetPerformanceCounter E w = Returned c w1
                           /\ - 2 ^ 63 <= c < 2 ^ 63).
  { unfold GetPerformanceCounter, bind, call_QueryPerformanceCounter,
      call_gettimeofday, ret.
    destruct (WIN32 E).
    - eexists _, _. split; [reflexivity|apply to_int64_range].
    - destruct (gettimeofday E (trace w)).
      eexists _, _. split; [reflexivity|apply to_int64_range]. }
  destruct H as (c & w1 & -> & Hc).
  exists c, w1, (encode E 8 c). split; [reflexivity|].
  split; [|split].
  - unfold RAND_add, log, ret.
    now rewrite memory_cleanse_whole by apply length_encode.
  - apply length_encode.
  - rewrite decode_encode. change (256 ^ Z.of_nat 8) with (2 ^ 64).
    rewrite to_int64_mod. now apply to_int64_small.
Qed.

(** ** The OpenSSL facade *)

(** X5: a [GetRandBytes] that returns has overwritten exactly the first
    [num] bytes of the buffer with the bytes of its single [RAND_bytes]
    call; the length of the buffer and the bytes after the first [num]
    are unchanged. *)
Theorem GetRandBytes_overwrites_exactly_num_bytes
    (E : Env) (buf : list byte) (num : Z) (w : World)
    (out : list byte) (w' : World) :
  0 <= num <= Z.of_nat (length buf) ->
  GetRandBytes E buf num w = Returned out w' ->
  length out = length buf /\
  skipn (Z.to_nat num) out = skipn (Z.to_nat num) buf /\
  length (firstn (Z.to_nat num) out) = Z.to_nat num /\
  w' = emits [EvRAND_bytes num 1 (firstn (Z.to_nat num) out)] w.
Proof.
  intros Hnum G. rewrite GetRandBytes_eq in G. cbv zeta in G.
  set (data := take_bytes _ _) in G.
  assert (Hd : length data = Z.to_nat num) by apply length_take_bytes.
  destruct (fst (RAND_bytes E (trace w) num) =? 1) eqn:Hr; [|discriminate G].
  apply Z.eqb_eq in Hr. rewrite Hr in G. injection G as <- <-.
  unfold write_at. cbn [firstn app Nat.add].
  assert (Hf : firstn (Z.to_nat num) (data ++ skipn (length data) buf) = data).
  { rewrite firstn_app, firstn_all2 by lia.
    replace (Z.to_nat num - length data)%nat with 0%nat by lia.
    cbn [firstn]. apply app_nil_r. }
  rewrite Hf. repeat split.
  - rewrite length_app, length_skipn. lia.
  - rewrite skipn_app, skipn_all2 by lia.
    replace (Z.to_nat num - length data)%nat with 0%nat by lia.
    cbn [skipn app]. now rewrite Hd.
  - exact Hd.
Qed.

Lemma GetRandBytes_overwrites_exactly_num_bytes_witness :
  exists out w',
    GetRandBytes posix1 (repeat Byte.x01 5) 2 w0 = Returned out w' /\
    length out = 5%nat /\ skipn 2 out = repeat Byte.x01 3.
Proof.
  destruct (GetRandBytes posix1 (repeat Byte.x01 5) 2 w0) as [out w'|w'|w'| |w'] eqn:G;
    try (vm_compute in G; discriminate G).
  exists out, w'. split; [reflexivity|].
  destruct (GetRandBytes_overwrites_exactly_num_bytes
              posix1 (repeat Byte.x01 5) 2 w0 out w' ltac:(cbn; lia) G)
    as (H1 & H2 & _).
  split; [exact H1|exact H2].
Defined.

(** X6: [GetRandHash] makes one [RAND_bytes] call for 32 bytes; if the
    answer is 1 it returns exactly the 32 bytes of that call, whatever the
    hash object held before, and otherwise the process is ended by
    [RandFailure]: no hash is returned that the generator did not
    produce. *)
Theorem GetRandHash_returns_generator_bytes (E : Env) (hash : list byte) (w : World) :
  length hash = 32%nat ->
  let r := fst (RAND_bytes E (trace w) 32) in
  let data := take_bytes (snd (RAND_bytes E (trace w) 32)) 32 in
  length data = 32%nat /\
  (r = 1 -> GetRandHash E hash w = Returned data (emits [EvRAND_bytes 32 1 data] w)) /\
  (r <> 1 ->
   GetRandHash E hash w =
   Aborted (emits ([EvRAND_bytes 32 r data] ++ RandFailure_events) w)).
Proof.
  intros Hlen r data.
  assert (Hd : length data = 32%nat) by apply length_take_bytes.
  split; [exact Hd|].
  unfold GetRandHash, bind. rewrite GetRandBytes_eq. cbv zeta.
  change (Z.to_nat 32) with 32%nat. fold r data.
  split; intros Hr.
  - rewrite Hr. cbn [Z.eqb Pos.eqb]. unfold ret.
    now rewrite write_at_whole by congruence.
  - apply Z.eqb_neq in Hr. now rewrite Hr.
Qed.

Lemma GetRandHash_returns_generator_bytes_witness :
  length (repeat Byte.x00 32) = 32%nat /\
  GetRandHash win1 (repeat Byte.x00 32) w0 =
  Returned (map u8 (repeat 5 32)) (emits [EvRAND_bytes 32 1 (map u8 (repeat 5 32))] w0).
Proof.
  split; [reflexivity|].
  apply (proj1 (proj2 (GetRandHash_returns_generator_bytes
                         win1 (repeat Byte.x00 32) w0 eq_refl))).
  reflexivity.
Defined.

(** ** The performance-data scrape *)

(** From the initial buffer the loop makes one query, or, when that one
    answers [ERROR_MORE_DATA], a second one with a buffer of [nMaxSize]
    bytes. *)
Lemma RandAddSeedPerfmon_loop_shape (E : Env) (fuel : nat) (w : World) :
  (2 <= fuel)%nat ->
  exists v r n qs,
    RandAddSeedPerfmon_loop E fuel (vector_fill 250000 Byte.x00) w
    = Returned (v, r, n) (emits qs w) /\
    0 <= n < 2 ^ 32 /\
    ((qs = [EvRegQueryValueExA 250000 r n] /\ r <> ERROR_MORE_DATA) \/
     (exists n1, qs = [EvRegQueryValueExA 250000 ERROR_MORE_DATA n1;
                       EvRegQueryValueExA 10000000 r n])).
Proof.
  intros Hfuel. destruct fuel as [|[|fuel]]; try lia.
  assert (U : forall z, 0 <= to_uint32 z < 2 ^ 32).
  { intros z. unfold to_uint32, to_uint. apply Z.mod_pos_bound. lia. }
  cbn [RandAddSeedPerfmon_loop]. unfold bind at 1. unfold call_RegQueryValueExA at 1.
  cbn [vector_fill vsize]. change (to_uint32 250000) with 250000.
  destruct (RegQueryValueExA E (trace w) 250000) as [[r n] src].
  cbn [vector_store vsize].
  change (250000 >=? nMaxSize) with false. rewrite orb_false_r.
  destruct (r =? ERROR_MORE_DATA) eqn:Hr; cbn [negb].
  - apply Z.eqb_eq in Hr. subst r.
    unfold bind at 1. unfold call_RegQueryValueExA at 1. cbn [resize vsize].
    change (to_uint32 (Z.max (250000 * 3 / 2) nMaxSize)) with 10000000.
    destruct (RegQueryValueExA E _ _) as [[r' n'] src'].
    cbn [vector_store resize vsize].
    change (Z.max (250000 * 3 / 2) nMaxSize >=? nMaxSize) with true.
    rewrite orb_true_r. unfold ret.
    eexists _, r', (to_uint32 n'), _. split; [|split; [apply U|]].
    + rewrite (emit_as_emits _ w), emit_emits. reflexivity.
    + right. eexists. reflexivity.
  - apply Z.eqb_neq in Hr. unfold ret.
    eexists _, r, (to_uint32 n), _. split; [|split; [apply U|]].
    + rewrite (emit_as_emits _ w). reflexivity.
    + left. split; [reflexivity|exact Hr].
Qed.

(** [RandAddSeedPerfmon] on Windows, step by step. *)
Lemma RandAddSeedPerfmon_win32_eq (E : Env) (fuel : nat) (w : World) :
  WIN32 E = true ->
  RandAddSeedPerfmon E fuel w =
  let w1 := emits (timing_feed E (trace w)) w in
  let t := GetTime E (trace w1) in
  let w2 := emit (EvGetTime t) w1 in
  if t <? nLastPerfmon w + 10 * 60 then Returned tt w2
  else
    let t' := GetTime E (trace w2) in
    let w3 := set_nLastPerfmon t' (emit (EvGetTime t') w2) in
    match RandAddSeedPerfmon_loop E fuel (vector_fill 250000 Byte.x00) w3 with
    | Returned (v, r, n) w4 =>
        Returned tt (perfmon_finish v r n (emit EvRegCloseKey w4))
    | Aborted w' => Aborted w'
    | AssertFailed w' => AssertFailed w'
    | Undefined w' => Undefined w'
    | OutOfFuel w' => OutOfFuel w'
    end.
Proof.
  intros HW. unfold RandAddSeedPerfmon. unfold bind at 1.
  rewrite RandAddSeed_eq, HW. cbv zeta.
  set (w1 := emits (timing_feed E (trace w)) w).
  unfold bind at 1. unfold call_GetTime at 1.
  set (t := GetTime E (trace w1)). unfold bind at 1.
  change (nLastPerfmon (emit (EvGetTime t) w1)) with (nLastPerfmon w).
  destruct (t <? nLastPerfmon w + 10 * 60); [reflexivity|].
  unfold bind at 1. unfold call_GetTime at 1.
  set (w2 := emit (EvGetTime t) w1).
  set (t' := GetTime E (trace w2)).
  unfold bind at 1. unfold bind at 1.
  destruct (RandAddSeedPerfmon_loop E fuel _ _) as [[[v r] n] w4|w4|w4| |w4];
    try reflexivity.
  unfold bind at 1. unfold call_RegCloseKey, log, perfmon_finish.
  destruct (r =? ERROR_SUCCESS).
  - unfold bind, RAND_add, LogPrint, log, ret. f_equal.
    unfold emit, emits. cbn. now rewrite <- !app_assoc.
  - unfold bind at 1.
    destruct (warned (emit EvRegCloseKey w4)); cbn [negb]; [reflexivity|].
    unfold bind, LogPrintf, log. reflexivity.
Qed.

(** X7: on Windows a call that reads a time less than ten minutes after
    the last scrape returns after the timing feed and that one reading
    of the time: the registry is not queried, nothing else is fed to the
    pool, and [nLastPerfmon] and [warned] keep their values. *)
Theorem RandAddSeedPerfmon_throttled (E : Env) (fuel : nat) (w : World) :
  WIN32 E = true ->
  let w1 := emits (timing_feed E (trace w)) w in
  let t := GetTime E (trace w1) in
  t < nLastPerfmon w + 600 ->
  RandAddSeedPerfmon E fuel w =
  Returned tt {| trace := trace w ++ timing_feed E (trace w) ++ [EvGetTime t];
                 nLastPerfmon := nLastPerfmon w;
                 warned := warned w |}.
Proof.
  intros HW w1 t Ht.
  rewrite (RandAddSeedPerfmon_win32_eq E fuel w HW). cbv zeta. fold w1 t.
  change (10 * 60) with 600. apply Z.ltb_lt in Ht. rewrite Ht.
  f_equal. unfold emit, w1, emits. cbn. now rewrite <- app_assoc.
Qed.

(** On [win1], 100 seconds after the last scrape. *)
Lemma RandAddSeedPerfmon_throttled_witness :
  WIN32 win1 = true /\
  GetTime win1 (trace (emits (timing_feed win1 (trace w_sampled)) w_sampled))
  < nLastPerfmon w_sampled + 600 /\
  exists w',
    RandAddSeedPerfmon win1 0 w_sampled = Returned tt w' /\
    count_events is_RegQuery (trace w') = 0%nat /\
    nLastPerfmon w' = 1699999900.
Proof.
  assert (Ht : GetTime win1 (trace (emits (timing_feed win1 (trace w_sampled)) w_sampled))
               < nLastPerfmon w_sampled + 600) by (vm_compute; reflexivity).
  split; [reflexivity|]. split; [exact Ht|].
  eexists. split.
  - apply (RandAddSeedPerfmon_throttled win1 0 w_sampled eq_refl Ht).
  - split; reflexivity.
Defined.

Lemma nLastPerfmon_perfmon_finish (v : vector) (r n : Z) (w : World) :
  nLastPerfmon (perfmon_finish v r n w) = nLastPerfmon w.
Proof.
  unfold perfmon_finish.
  destruct (r =? ERROR_SUCCESS); [reflexivity|].
  destruct (warned w); reflexivity.
Qed.

(** The two queries of the loop, as answered by [E]: the buffer after
    the first one, and after the second one, made with the buffer grown
    to [nMaxSize] bytes, which keeps what the first one wrote. *)
Lemma RandAddSeedPerfmon_loop_eq (E : Env) (fuel : nat) (w : World) :
  (2 <= fuel)%nat ->
  let q1 := RegQueryValueExA E (trace w) 250000 in
  let r1 := fst (fst q1) in
  let n1 := to_uint32 (snd (fst q1)) in
  let v1 := vector_store (vector_fill 250000 Byte.x00) (Z.min n1 250000) (snd q1) in
  let e1 := EvRegQueryValueExA 250000 r1 n1 in
  let q2 := RegQueryValueExA E (trace w ++ [e1]) 10000000 in
  let r2 := fst (fst q2) in
  let n2 := to_uint32 (snd (fst q2)) in
  let v2 := vector_store (resize v1 10000000) (Z.min n2 10000000) (snd q2) in
  let e2 := EvRegQueryValueExA 10000000 r2 n2 in
  RandAddSeedPerfmon_loop E fuel (vector_fill 250000 Byte.x00) w =
  if r1 =? ERROR_MORE_DATA
  then Returned (v2, r2, n2) (emits [e1; e2] w)
  else Returned (v1, r1, n1) (emits [e1] w).
Proof.
  intros Hfuel. destruct fuel as [|[|fuel]]; try lia. cbv zeta.
  cbn [RandAddSeedPerfmon_loop]. unfold bind at 1. unfold call_RegQueryValueExA at 1.
  cbn [vector_fill vsize]. change (to_uint32 250000) with 250000.
  destruct (RegQueryValueExA E (trace w) 250000) as [[r n] src].
  cbn [vector_store vsize fst snd].
  change (250000 >=? nMaxSize) with false. rewrite orb_false_r.
  destruct (r =? ERROR_MORE_DATA) eqn:Hr; cbn [negb].
  - unfold bind at 1. unfold call_RegQueryValueExA at 1.
    change (Z.max (vsize (vector_fill 250000 Byte.x00) * 3 / 2) nMaxSize)
      with 10000000.
    cbn [resize vsize]. change (to_uint32 10000000) with 10000000.
    cbn [trace emit].
    destruct (RegQueryValueExA E _ 10000000) as [[r' n'] src'].
    cbn [vector_store resize vsize fst snd].
    change (10000000 >=? nMaxSize) with true.
    rewrite orb_true_r. unfold ret.
    rewrite (emit_as_emits _ w), emit_emits. reflexivity.
  - unfold ret. rewrite (emit_as_emits _ w). reflexivity.
Qed.

(** X8: on Windows a call that reads a time at least ten minutes after
    the last scrape sets [nLastPerfmon] to a second reading of the time,
    queries the performance data of [E] once with the 250000-byte buffer
    and, only if the answer is [ERROR_MORE_DATA], once more with the
    buffer grown to 10000000 bytes, and closes the key.  If the last
    answer is [ERROR_SUCCESS] it feeds to the pool the first [nSize]
    bytes of the buffer as the queries of [E] left it, [nSize] being the
    size the last query reported, with weight [nSize / 100] (here the
    exact quotient); otherwise it feeds nothing more and [warned] is
    set.  The call returns in every case. *)
Theorem RandAddSeedPerfmon_samples (E : Env) (fuel : nat) (w : World) :
  WIN32 E = true ->
  (2 <= fuel)%nat ->
  let w1 := emits (timing_feed E (trace w)) w in
  let t := GetTime E (trace w1) in
  nLastPerfmon w + 600 <= t ->
  let t' := GetTime E (trace w1 ++ [EvGetTime t]) in
  let h := trace w1 ++ [EvGetTime t; EvGetTime t'] in
  let q1 := RegQueryValueExA E h 250000 in
  let r1 := fst (fst q1) in
  let n1 := to_uint32 (snd (fst q1)) in
  let v1 := vector_store (vector_fill 250000 Byte.x00) (Z.min n1 250000) (snd q1) in
  let e1 := EvRegQueryValueExA 250000 r1 n1 in
  let q2 := RegQueryValueExA E (h ++ [e1]) 10000000 in
  let r2 := fst (fst q2) in
  let n2 := to_uint32 (snd (fst q2)) in
  let v2 := vector_store (resize v1 10000000) (Z.min n2 10000000) (snd q2) in
  let e2 := EvRegQueryValueExA 10000000 r2 n2 in
  let again := r1 =? ERROR_MORE_DATA in
  let qs := if again then [e1; e2] else [e1] in
  let r := if again then r2 else r1 in
  let n := if again then n2 else n1 in
  let v := if again then v2 else v1 in
  exists w' tail,
    RandAddSeedPerfmon E fuel w = Returned tt w' /\
    trace w' = h ++ qs ++ [EvRegCloseKey] ++ tail /\
    nLastPerfmon w' = t' /\
    (r = ERROR_SUCCESS ->
     tail = [EvRAND_add (take_bytes (vdata v) (Z.to_nat n)) (n # 100);
             EvLogPrint "rand" "%s: %lu bytes"] /\
     warned w' = warned w) /\
    (r <> ERROR_SUCCESS ->
     count_events is_RAND_add tail = 0%nat /\ warned w' = true).
Proof.
  intros HW Hfuel w1 t Ht t' h.
  rewrite (RandAddSeedPerfmon_win32_eq E fuel w HW). cbv zeta. fold w1 t.
  change (10 * 60) with 600.
  replace (t <? nLastPerfmon w + 600) with false by (symmetry; apply Z.ltb_ge; lia).
  change (trace (emit (EvGetTime t) w1)) with (trace w1 ++ [EvGetTime t]). fold t'.
  set (w3 := set_nLastPerfmon t' (emit (EvGetTime t') (emit (EvGetTime t) w1))).
  assert (Hh : trace w3 = h).
  { subst w3 h. cbn [trace emit set_nLastPerfmon]. now rewrite <- app_assoc. }
  rewrite (RandAddSeedPerfmon_loop_eq E fuel w3 Hfuel). cbv zeta. rewrite Hh.
  set (q1 := RegQueryValueExA E h 250000).
  set (r1 := fst (fst q1)). set (n1 := to_uint32 (snd (fst q1))).
  set (v1 := vector_store _ (Z.min n1 250000) (snd q1)).
  set (e1 := EvRegQueryValueExA 250000 r1 n1).
  set (q2 := RegQueryValueExA E (h ++ [e1]) 10000000).
  set (r2 := fst (fst q2)). set (n2 := to_uint32 (snd (fst q2))).
  set (v2 := vector_store _ (Z.min n2 10000000) (snd q2)).
  set (e2 := EvRegQueryValueExA 10000000 r2 n2).
  assert (F : forall v r n qs,
             exists w' tail,
               Returned tt (perfmon_finish v r n (emit EvRegCloseKey (emits qs w3)))
               = Returned tt w' /\
               trace w' = h ++ qs ++ [EvRegCloseKey] ++ tail /\
               nLastPerfmon w' = t' /\
               (r = ERROR_SUCCESS ->
                tail = [EvRAND_add (take_bytes (vdata v) (Z.to_nat n)) (n # 100);
                        EvLogPrint "rand" "%s: %lu bytes"] /\
                warned w' = warned w) /\
               (r <> ERROR_SUCCESS ->
                count_events is_RAND_add tail = 0%nat /\ warned w' = true)).
  { intros v r n qs.
    assert (Ht3 : trace (emit EvRegCloseKey (emits qs w3)) = h ++ qs ++ [EvRegCloseKey]).
    { cbn [trace emit emits]. rewrite Hh. now rewrite <- app_assoc. }
    set (w5 := emit EvRegCloseKey (emits qs w3)) in *.
    assert (Hl5 : nLastPerfmon w5 = t') by reflexivity.
    assert (Hw5 : warned w5 = warned w) by reflexivity.
    clearbody w5.
    unfold perfmon_finish.
    destruct (r =? ERROR_SUCCESS) eqn:Hr.
    - apply Z.eqb_eq in Hr.
      eexists _, _. split; [reflexivity|].
      split; [cbn [trace emits]; rewrite Ht3; now rewrite <- !app_assoc|].
      split; [exact Hl5|]. split.
      + intros _. split; [reflexivity|exact Hw5].
      + intros Hne. contradiction.
    - apply Z.eqb_neq in Hr. destruct (warned w5) eqn:Hwd.
      + exists w5, []. split; [reflexivity|].
        split; [rewrite Ht3; now rewrite app_nil_r|].
        split; [exact Hl5|]. split.
        * intros He. contradiction.
        * intros _. split; [reflexivity|exact Hwd].
      + eexists _, [_]. split; [reflexivity|].
        split; [cbn [trace emits set_warned]; rewrite Ht3; now rewrite <- !app_assoc|].
        split; [exact Hl5|]. split.
        * intros He. contradiction.
        * intros _. split; reflexivity. }
  destruct (r1 =? ERROR_MORE_DATA); apply F.
Qed.

(** On [win3] the second query succeeds with 16 bytes, and these are the
    bytes fed to the pool. *)
Lemma RandAddSeedPerfmon_samples_witness :
  WIN32 win3 = true /\ (2 <= 2)%nat /\
  nLastPerfmon w0 + 600
  <= GetTime win3 (trace (emits (timing_feed win3 (trace w0)) w0)) /\
  exists w' tail,
    RandAddSeedPerfmon win3 2 w0 = Returned tt w' /\
    nLastPerfmon w' = 1700000000 /\
    count_events is_RegQuery (trace w') = 2%nat /\
    trace w' = timing_feed win3 [] ++
               [EvGetTime 1700000000; EvGetTime 1700000000;
                EvRegQueryValueExA 250000 ERROR_MORE_DATA 400000;
                EvRegQueryValueExA 10000000 ERROR_SUCCESS 16;
                EvRegCloseKey] ++ tail /\
    tail = [EvRAND_add (map u8 [101; 102; 103; 104; 105; 106; 107; 108;
                                109; 110; 111; 112; 113; 114; 115; 116]) (16 # 100);
            EvLogPrint "rand" "%s: %lu bytes"].
Proof.
  assert (Ht : nLastPerfmon w0 + 600
               <= GetTime win3 (trace (emits (timing_feed win3 (trace w0)) w0)))
    by (vm_compute; discriminate).
  split; [reflexivity|]. split; [lia|]. split; [exact Ht|].
  destruct (RandAddSeedPerfmon_samples win3 2 w0 eq_refl (Nat.le_refl 2) Ht)
    as (w' & tail & G & Htr & Hl & Hs & _).
  exists w', tail. split; [exact G|].
  specialize (Hs eq_refl). destruct Hs as [Htail _].
  assert (Htail' : tail = [EvRAND_add (map u8 [101; 102; 103; 104; 105; 106; 107; 108;
                                109; 110; 111; 112; 113; 114; 115; 116]) (16 # 100);
            EvLogPrint "rand" "%s: %lu bytes"]).
  { rewrite Htail. vm_compute. reflexivity. }
  split; [rewrite Hl; reflexivity|].
  split; [rewrite Htr, Htail'; vm_compute; reflexivity|].
  split; [rewrite Htr; reflexivity|exact Htail'].
Defined.

(** X9: a call that takes the sample and a later call that reads a time
    less than ten minutes after the time the first one recorded: the
    later call is throttled, it makes no query and leaves [nLastPerfmon]
    at the recorded time. *)
Theorem RandAddSeedPerfmon_once_per_window
    (E : Env) (fuel fuel2 : nat) (w w' : World) :
  WIN32 E = true ->
  (2 <= fuel)%nat ->
  let w1 := emits (timing_feed E (trace w)) w in
  let t := GetTime E (trace w1) in
  let t' := GetTime E (trace (emit (EvGetTime t) w1)) in
  nLastPerfmon w + 600 <= t ->
  RandAddSeedPerfmon E fuel w = Returned tt w' ->
  let t2 := GetTime E (trace (emits (timing_feed E (trace w')) w')) in
  t2 < t' + 600 ->
  nLastPerfmon w' = t' /\
  RandAddSeedPerfmon E fuel2 w' =
  Returned tt {| trace := trace w' ++ timing_feed E (trace w') ++ [EvGetTime t2];
                 nLastPerfmon := t';
                 warned := warned w' |}.
Proof.
  intros HW Hfuel w1 t t' Ht G t2 Ht2.
  assert (Hl : nLastPerfmon w' = t').
  { rewrite (RandAddSeedPerfmon_win32_eq E fuel w HW) in G. cbv zeta in G.
    fold w1 t in G. change (10 * 60) with 600 in G.
    replace (t <? nLastPerfmon w + 600) with false in G
      by (symmetry; apply Z.ltb_ge; lia).
    fold t' in G.
    destruct (RandAddSeedPerfmon_loop_shape E fuel
                (set_nLastPerfmon t' (emit (EvGetTime t') (emit (EvGetTime t) w1))) Hfuel)
      as (v & r & n & qs & Hloop & _).
    rewrite Hloop in G. injection G as <-.
    now rewrite nLastPerfmon_perfmon_finish. }
  split; [exact Hl|].
  rewrite (RandAddSeedPerfmon_win32_eq E fuel2 w' HW). cbv zeta. fold t2.
  change (10 * 60) with 600. rewrite Hl.
  apply Z.ltb_lt in Ht2. rewrite Ht2.
  f_equal. unfold emit, emits. cbn. rewrite Hl. now rewrite <- app_assoc.
Qed.

(** On [win1], whose clock stands still, a second call right after the
    first. *)
Lemma RandAddSeedPerfmon_once_per_window_witness :
  exists w' w'',
    RandAddSeedPerfmon win1 2 w0 = Returned tt w' /\
    RandAddSeedPerfmon win1 2 w' = Returned tt w'' /\
    count_events is_RegQuery (trace w') = 2%nat /\
    count_events is_RegQuery (trace w'') = 2%nat.
Proof.
  destruct (RandAddSeedPerfmon win1 2 w0) as [[] w'|w'|w'| |w'] eqn:G;
    try (vm_compute in G; discriminate G).
  assert (Ht : nLastPerfmon w0 + 600
               <= GetTime win1 (trace (emits (timing_feed win1 (trace w0)) w0)))
    by (vm_compute; discriminate).
  assert (Ht2 : GetTime win1 (trace (emits (timing_feed win1 (trace w')) w'))
                < GetTime win1 (trace (emit (EvGetTime
                     (GetTime win1 (trace (emits (timing_feed win1 (trace w0)) w0))))
                     (emits (timing_feed win1 (trace w0)) w0))) + 600)
    by (vm_compute; reflexivity).
  destruct (RandAddSeedPerfmon_once_per_window win1 2 2 w0 w' eq_refl
              (Nat.le_refl 2) Ht G Ht2) as [_ G2].
  eexists w', _. split; [reflexivity|]. split; [exact G2|].
  vm_compute in G. injection G as <-. split; reflexivity.
Defined.

Lemma count_events_app (p : Event -> bool) (h1 h2 : History) :
  count_events p (h1 ++ h2) = (count_events p h1 + count_events p h2)%nat.
Proof. unfold count_events. now rewrite filter_app, length_app. Qed.

Lemma count_LogPrintf_timing_feed (E : Env) (h : History) :
  count_events is_LogPrintf (timing_feed E h) = 0%nat.
Proof.
  unfold timing_feed. destruct (WIN32 E); [reflexivity|].
  destruct (gettimeofday E h). reflexivity.
Qed.

(** X10: [RandAddSeedPerfmon] is never fatal and warns at most once: on
    every platform and for every answer of the system it returns; the
    events of one call hold at most one [LogPrintf]; when [warned] is
    already set it logs none and [warned] stays set; and it logs one only
    with [warned] unset before and set after. *)
Theorem RandAddSeedPerfmon_warns_at_most_once (E : Env) (fuel : nat) (w : World) :
  (2 <= fuel)%nat ->
  exists w' evs,
    RandAddSeedPerfmon E fuel w = Returned tt w' /\
    trace w' = trace w ++ evs /\
    (count_events is_LogPrintf evs <= 1)%nat /\
    (warned w = true -> count_events is_LogPrintf evs = 0%nat /\ warned w' = true) /\
    (count_events is_LogPrintf evs = 1%nat -> warned w = false /\ warned w' = true) /\
    (count_events is_LogPrintf evs = 0%nat -> warned w' = warned w).
Proof.
  intros Hfuel. destruct (WIN32 E) eqn:HW.
  - rewrite (RandAddSeedPerfmon_win32_eq E fuel w HW). cbv zeta.
    set (w1 := emits (timing_feed E (trace w)) w).
    set (t := GetTime E (trace w1)).
    destruct (t <? nLastPerfmon w + 10 * 60).
    + eexists _, (timing_feed E (trace w) ++ [EvGetTime t]).
      split; [reflexivity|].
      split; [subst w1; cbn [trace emit emits]; now rewrite <- app_assoc|].
      rewrite count_events_app, count_LogPrintf_timing_feed.
      cbn. repeat split; auto; lia.
    + set (w2 := emit (EvGetTime t) w1).
      set (t' := GetTime E (trace w2)).
      set (w3 := set_nLastPerfmon t' (emit (EvGetTime t') w2)).
      destruct (RandAddSeedPerfmon_loop_shape E fuel w3 Hfuel)
        as (v & r & n & qs & -> & Hn & Hqs).
      assert (Hq : count_events is_LogPrintf qs = 0%nat).
      { destruct Hqs as [[-> _]|[n1 ->]]; reflexivity. }
      set (w5 := emit EvRegCloseKey (emits qs w3)).
      assert (Ht5 : trace w5
                    = trace w ++ timing_feed E (trace w)
                      ++ [EvGetTime t; EvGetTime t'] ++ qs ++ [EvRegCloseKey]).
      { subst w5 w3 w2 w1. cbn [trace emit emits set_nLastPerfmon].
        now rewrite <- !app_assoc. }
      assert (Hw5 : warned w5 = warned w) by reflexivity.
      clearbody w5. unfold perfmon_finish.
      destruct (r =? ERROR_SUCCESS).
      * eexists _, (timing_feed E (trace w) ++ [EvGetTime t; EvGetTime t'] ++ qs
                    ++ [EvRegCloseKey] ++ [_; _]).
        split; [reflexivity|].
        split; [cbn [trace emits]; rewrite Ht5; now rewrite <- !app_assoc|].
        rewrite !count_events_app, count_LogPrintf_timing_feed, Hq.
        cbn. rewrite Hw5. repeat split; auto; lia.
      * destruct (warned w5) eqn:Hwd.
        -- exists w5, (timing_feed E (trace w) ++ [EvGetTime t; EvGetTime t'] ++ qs
                       ++ [EvRegCloseKey]).
           split; [reflexivity|]. split; [exact Ht5|].
           rewrite !count_events_app, count_LogPrintf_timing_feed, Hq.
           cbn. rewrite Hwd, <- Hw5. repeat split; auto; lia.
        -- eexists _, (timing_feed E (trace w) ++ [EvGetTime t; EvGetTime t'] ++ qs
                       ++ [EvRegCloseKey] ++ [_]).
           split; [reflexivity|].
           split; [cbn [trace emits set_warned]; rewrite Ht5; now rewrite <- !app_assoc|].
           rewrite !count_events_app, count_LogPrintf_timing_feed, Hq.
           cbn. rewrite <- Hw5. repeat split; auto; try lia; congruence.
  - exists (emits (timing_feed E (trace w)) w), (timing_feed E (trace w)).
    split.
    + unfold RandAddSeedPerfmon, bind. now rewrite RandAddSeed_eq, HW.
    + split; [reflexivity|].
      rewrite count_LogPrintf_timing_feed. cbn. repeat split; auto; lia.
Qed.

(** On [win2], whose performance data cannot be queried: the first call
    warns, the second, after the warning, does not. *)
Lemma RandAddSeedPerfmon_warns_at_most_once_witness :
  (2 <= 2)%nat /\
  (exists w', RandAddSeedPerfmon win2 2 w0 = Returned tt w' /\
              count_events is_LogPrintf (trace w') = 1%nat /\ warned w' = true) /\
  (exists w', RandAddSeedPerfmon win2 2 w_warned = Returned tt w' /\
              count_events is_LogPrintf (trace w') = 0%nat /\ warned w' = true).
Proof.
  split; [lia|]. split.
  - destruct (RandAddSeedPerfmon_warns_at_most_once win2 2 w0 (Nat.le_refl 2))
      as (w' & evs & G & Ht & _ & _ & H1 & _).
    exists w'. split; [exact G|].
    assert (Hc : count_events is_LogPrintf evs = 1%nat).
    { vm_compute in G. injection G as <-. cbn [trace w0 app] in Ht.
      rewrite <- Ht. reflexivity. }
    split; [|exact (proj2 (H1 Hc))].
    cbn [trace w0 app] in Ht. now rewrite Ht.
  - destruct (RandAddSeedPerfmon_warns_at_most_once win2 2 w_warned (Nat.le_refl 2))
      as (w' & evs & G & Ht & _ & H1 & _).
    exists w'. split; [exact G|].
    destruct (H1 eq_refl) as [Hc Hw].
    split; [|exact Hw].
    cbn [trace w_warned app] in Ht. now rewrite Ht.
Defined.

(** ** The OS entropy source on a conforming device *)

Lemma GetOSRand_loop_conforming (E : Env) (f : Z) (fuel : nat) :
  (forall h fd count, 0 < count -> 0 < fst (read E h fd count) <= count) ->
  forall (buf : list byte) (have : Z) (w : World),
    0 <= have < 32 ->
    (Z.to_nat (32 - have) <= fuel)%nat ->
    exists s w',
      do_while fuel (GetOSRand_body E f) (fun s => snd s <? 32) (buf, have) w
      = Returned s w'.
Proof.
  intros Hread. induction fuel as [|fuel IH]; intros buf have w Hh Hfuel; [lia|].
  cbn [do_while]. unfold bind at 1.
  rewrite GetOSRand_body_eq by exact Hh. cbv zeta.
  pose proof (Hread (trace w) f (32 - have) ltac:(lia)) as Hn.
  set (n := fst (read E (trace w) f (32 - have))) in *.
  replace (n <=? 0) with false by (symmetry; apply Z.leb_gt; lia).
  replace (SSIZE_MAX <? n + have) with false
    by (symmetry; apply Z.ltb_ge; unfold SSIZE_MAX;
        change (2 ^ 63) with 9223372036854775808; lia).
  rewrite andb_false_r.
  replace (n + have >? 32) with false
    by (symmetry; rewrite Z.gtb_ltb; apply Z.ltb_ge; lia).
  cbn [snd]. destruct (have + n <? 32) eqn:Hlt.
  - apply Z.ltb_lt in Hlt. apply IH; lia.
  - unfold ret. eauto.
Qed.

Lemma count_read_events (fd have : Z) (chunks : list (list byte)) :
  count_events is_read (read_events fd have chunks) = length chunks.
Proof.
  revert have. induction chunks as [|c rest IH]; intros have; [reflexivity|].
  cbn [read_events]. unfold count_events in *. cbn [filter is_read length].
  now rewrite IH.
Qed.

Lemma length_le_concat (chunks : list (list byte)) :
  Forall (fun c => c <> []) chunks ->
  (length chunks <= length (concat chunks))%nat.
Proof.
  induction 1 as [|c rest Hc _ IH]; [cbn; lia|].
  cbn [concat length]. rewrite length_app.
  destruct c; [contradiction|]. cbn [length]. lia.
Qed.

(** X11: on a POSIX machine whose device can be opened and gives every
    read between 1 and the number of bytes asked for, [GetOSRand] never
    aborts: it opens the device, makes between 1 and 32 reads, each for
    exactly the bytes still missing, closes the descriptor it opened and
    returns the 32 bytes read. *)
Theorem GetOSRand_returns_on_conforming_device
    (E : Env) (fuel : nat) (ent32 : list byte) (w : World) :
  urandom_conforming E ->
  (32 <= fuel)%nat ->
  exists out fd chunks,
    GetOSRand E fuel ent32 w =
    Returned out (emits ([EvOpen fd] ++ read_events fd 0 chunks ++ [EvClose fd]) w) /\
    fd <> -1 /\
    firstn 32 out = concat chunks /\
    length (concat chunks) = 32%nat /\
    (1 <= length chunks <= 32)%nat /\
    count_events is_read ([EvOpen fd] ++ read_events fd 0 chunks ++ [EvClose fd])
    = length chunks.
Proof.
  intros (HW & Hopen & Hread) Hfuel. unfold GetOSRand. rewrite HW.
  unfold bind at 1. unfold call_open.
  set (f := open_urandom E (trace w)).
  assert (Hf : f <> -1) by apply Hopen.
  unfold bind at 1.
  replace (f =? -1) with false by (symmetry; now apply Z.eqb_neq).
  cbn [ret]. unfold bind at 1.
  destruct (GetOSRand_loop_conforming E f fuel Hread ent32 0 (emit (EvOpen f) w)
              ltac:(lia) ltac:(cbn; lia)) as (s & w' & Hloop).
  pose proof (GetOSRand_loop_spec E f fuel ent32 0 (emit (EvOpen f) w)
                ltac:(lia) ltac:(cbn; lia) ltac:(cbn; lia)) as L.
  rewrite Hloop in L. rewrite Hloop. destruct s as [out have'].
  destruct L as (_ & chunks & _ & Hc & Hsum & -> & ->).
  unfold bind, call_close, log, ret.
  assert (Hlen : length (concat chunks) = 32%nat) by lia.
  exists (concat chunks ++ skipn 32 ent32), f, chunks.
  repeat split.
  - cbn [firstn Z.to_nat app]. f_equal.
    rewrite (emit_as_emits (EvOpen f) w), emits_emits, emit_emits.
    now rewrite <- !app_assoc.
  - exact Hf.
  - rewrite firstn_app, firstn_all2 by lia.
    replace (32 - length (concat chunks))%nat with 0%nat by lia.
    cbn [firstn]. apply app_nil_r.
  - exact Hlen.
  - destruct chunks; [cbn in Hlen; lia|cbn; lia].
  - pose proof (length_le_concat chunks Hc). lia.
  - rewrite !count_events_app, count_read_events. cbn. lia.
Qed.

Lemma posix2_conforming : urandom_conforming posix2.
Proof.
  split; [reflexivity|]. split.
  - intros h. cbn. discriminate.
  - intros h fd count Hc. cbn. lia.
Qed.

(** On [posix2] the device gives five bytes at a time: seven reads. *)
Lemma GetOSRand_returns_on_conforming_device_witness :
  urandom_conforming posix2 /\ (32 <= 32)%nat /\
  exists out w',
    GetOSRand posix2 32 (repeat Byte.x00 32) w0 = Returned out w' /\
    count_events is_read (trace w') = 7%nat.
Proof.
  split; [exact posix2_conforming|]. split; [lia|].
  destruct (GetOSRand_returns_on_conforming_device posix2 32 (repeat Byte.x00 32) w0
              posix2_conforming (Nat.le_refl 32))
    as (out & fd & chunks & G & _).
  eexists out, _. split; [exact G|].
  assert (C : match GetOSRand posix2 32 (repeat Byte.x00 32) w0 with
              | Returned _ w' => count_events is_read (trace w') = 7%nat
              | _ => False
              end) by (vm_compute; reflexivity).
  rewrite G in C. exact C.
Defined.

(** ** Edge cases of the strong byte generator *)


(** X12: a request for zero bytes leaves [out] as it was, whatever its
    length, and yet makes every call of a full request: the seed mixer,
    the [RAND_bytes E] call for 32 bytes, which must answer 1, and the
    read of 32 bytes from the OS source of [E]; it ends like a full
    request when a source fails or a read overflows the guard. *)
Theorem GetStrongRandBytes_empty_request
    (E : Env) (SHA512 : list byte -> list byte)
    (fuel : nat) (out : list byte) (w : World) :
  (forall m, length (SHA512 m) = 64%nat) ->
  (32 <= fuel)%nat ->
  exists perf w1,
    RandAddSeedPerfmon E fuel w = Returned tt w1 /\
    trace w1 = trace w ++ timing_feed E (trace w) ++ perf /\
    count_events is_RAND_bytes perf = 0%nat /\
    let r := fst (RAND_bytes E (trace w1) 32) in
    let A := take_bytes (snd (RAND_bytes E (trace w1) 32)) 32 in
    let w2 := emits [EvRAND_bytes 32 r A] w1 in
    match GetStrongRandBytes E SHA512 fuel out 0 w with
    | Returned (out', _) w' =>
        out' = out /\ r = 1 /\
        exists B os,
          GetOSRand_success E (trace w2) os B /\ length B = 32%nat /\
          w' = emits os w2
    | Aborted w' =>
        (r <> 1 /\ w' = emits RandFailure_events w2) \/
        (r = 1 /\
         exists os,
           GetOSRand_failure E (trace w2) os /\
           w' = emits (os ++ RandFailure_events) w2)
    | Undefined w' =>
        r = 1 /\
        exists os, GetOSRand_overflow E (trace w2) os /\ w' = emits os w2
    | OutOfFuel _ | AssertFailed _ => False
    end.
Proof.
  intros Hsize Hfuel.
  destruct (GetStrongRandBytes_spec E SHA512 Hsize fuel out 0 w Hfuel
              ltac:(lia) ltac:(lia)) as (perf & w1 & HP & Hw1 & Hperf & S).
  exists perf, w1. split; [exact HP|]. split; [exact Hw1|]. split.
  { clear S Hw1. induction Hperf as [|e perf He _ IH]; [reflexivity|].
    unfold count_events in *. cbn [filter].
    destruct e; try discriminate He; exact IH. }
  cbv zeta in *.
  destruct (GetStrongRandBytes E SHA512 fuel out 0 w) as [[out' buf] w'|w'|w'|w'|w'];
    try exact S.
  destruct S as (Hr & B & os & Hos & HB & Ho & _ & Hw).
  split; [exact Ho|]. split; [exact Hr|]. exists B, os. auto.
Qed.

Lemma GetStrongRandBytes_empty_request_witness :
  (forall m, length (toy_digest m) = 64%nat) /\ (32 <= 32)%nat /\
  exists buf w',
    GetStrongRandBytes posix1 toy_digest 32 [] 0 w0 = Returned ([], buf) w' /\
    count_events is_RAND_bytes (trace w') = 1%nat.
Proof.
  split; [exact toy_digest_size|]. split; [lia|].
  destruct (GetStrongRandBytes_empty_request posix1 toy_digest 32 [] w0
              toy_digest_size (Nat.le_refl 32)) as (perf & w1 & _ & _ & _ & H).
  cbv zeta in H.
  assert (C : match GetStrongRandBytes posix1 toy_digest 32 [] 0 w0 with
              | Returned _ w' => count_events is_RAND_bytes (trace w') = 1%nat
              | _ => False
              end) by (vm_compute; reflexivity).
  destruct (GetStrongRandBytes posix1 toy_digest 32 [] 0 w0)
    as [[out' buf] w'|w'|w'|w'|w']; try contradiction.
  destruct H as [-> _]. exists buf, w'. split; [reflexivity|exact C].
Defined.

(** X13: the assertion of [GetStrongRandBytes] bounds [num] only from
    above.  A negative [num] passes it and the call goes on as a full
    request: it never returns normally and never fails the assertion.
    When the generator of [E] answers 1 and the OS source of [E] delivers
    its 32 bytes [B], the behaviour becomes undefined in the world
    reached after both draws, at [memcpy], which is called with the
    length [2^64 + num], beyond the 64-byte buffer.  Otherwise it ends as
    a full request does: in [RandFailure], or at a read of the OS source
    that overflows the guard. *)
Theorem GetStrongRandBytes_negative_num_not_caught
    (E : Env) (SHA512 : list byte -> list byte)
    (fuel : nat) (out : list byte) (num : Z) (w : World) :
  (forall m, length (SHA512 m) = 64%nat) ->
  (32 <= fuel)%nat ->
  INT_MIN <= num < 0 ->
  exists perf w1,
    RandAddSeedPerfmon E fuel w = Returned tt w1 /\
    trace w1 = trace w ++ timing_feed E (trace w) ++ perf /\
    let r := fst (RAND_bytes E (trace w1) 32) in
    let A := take_bytes (snd (RAND_bytes E (trace w1) 32)) 32 in
    let w2 := emits [EvRAND_bytes 32 r A] w1 in
    match GetStrongRandBytes E SHA512 fuel out num w with
    | Undefined w' =>
        r = 1 /\
        exists os,
          w' = emits os w2 /\
          (GetOSRand_overflow E (trace w2) os \/
           exists B,
             GetOSRand_success E (trace w2) os B /\
             length B = 32%nat /\
             to_uint64 num = 2 ^ 64 + num /\
             64 < 2 ^ 64 + num /\
             memcpy out (SHA512 (A ++ B)) (2 ^ 64 + num) w' = Undefined w')
    | Aborted w' =>
        (r <> 1 /\ w' = emits RandFailure_events w2) \/
        (r = 1 /\
         exists os,
           GetOSRand_failure E (trace w2) os /\
           w' = emits (os ++ RandFailure_events) w2)
    | Returned _ _ | OutOfFuel _ | AssertFailed _ => False
    end.
Proof.
  intros Hsize Hfuel Hnum.
  destruct (GetStrongRandBytes_negative E SHA512 Hsize fuel out num w Hfuel Hnum)
    as (perf & w1 & HP & Hw1 & _ & S).
  exists perf, w1. split; [exact HP|]. split; [exact Hw1|].
  cbv zeta in *.
  destruct (GetStrongRandBytes E SHA512 fuel out num w) as [r0 w'|w'|w'|w'|w'];
    try exact S.
  destruct S as (Hr & os & Hw & [Hov|(B & Hos & HB & Hu & Hm)]).
  - split; [exact Hr|]. exists os. split; [exact Hw|]. now left.
  - split; [exact Hr|]. exists os. split; [exact Hw|]. right.
    exists B. repeat split; auto.
    unfold INT_MIN in Hnum. change (2 ^ 31) with 2147483648 in Hnum.
    change (2 ^ 64) with 18446744073709551616. lia.
Qed.

(** On [posix1] both sources answer; with [num = -1] the behaviour is
    undefined after the draw from the generator and the two reads of the
    device. *)
Lemma GetStrongRandBytes_negative_num_not_caught_witness :
  (forall m, length (toy_digest m) = 64%nat) /\ (32 <= 32)%nat /\
  INT_MIN <= -1 < 0 /\
  exists w',
    GetStrongRandBytes posix1 toy_digest 32 (repeat Byte.x01 4) (-1) w0 = Undefined w' /\
    count_events is_RAND_bytes (trace w') = 1%nat /\
    count_events is_read (trace w') = 2%nat.
Proof.
  assert (H1 : INT_MIN <= -1 < 0) by (unfold INT_MIN; lia).
  split; [exact toy_digest_size|]. split; [lia|]. split; [exact H1|].
  destruct (GetStrongRandBytes_negative_num_not_caught posix1 toy_digest 32
              (repeat Byte.x01 4) (-1) w0 toy_digest_size (Nat.le_refl 32) H1)
    as (perf & w1 & _ & _ & H).
  cbv zeta in H.
  assert (C : match GetStrongRandBytes posix1 toy_digest 32 (repeat Byte.x01 4) (-1) w0 with
              | Undefined w' => count_events is_RAND_bytes (trace w') = 1%nat /\
                                count_events is_read (trace w') = 2%nat
              | _ => False
              end) by (vm_compute; split; reflexivity).
  destruct (GetStrongRandBytes posix1 toy_digest 32 (repeat Byte.x01 4) (-1) w0)
    as [r0 w'|w'|w'|w'|w']; try contradiction.
  exists w'. split; [reflexivity|exact C].
Defined.

(** ** The seeding of the lanes *)

(** X14: when the generator answers two 32-bit draws of which the first
    is neither 0 nor 0x9068ffff and the second neither 0 nor 0x464fffff,
    the non-deterministic constructor returns after exactly these two
    draws, with [Rz] the first and [Rw] the second.  A lane's constant is
    rejected for that lane only: 0x464fffff can seed [Rz] and 0x9068ffff
    can seed [Rw]. *)
Theorem FastRandomContext_seeded_by_two_draws (E : Env) (fuel : nat) (w : World) :
  let d1 := take_bytes (snd (RAND_bytes E (trace w) 4)) 4 in
  let w1 := emits [EvRAND_bytes 4 1 d1] w in
  let d2 := take_bytes (snd (RAND_bytes E (trace w1) 4)) 4 in
  fst (RAND_bytes E (trace w) 4) = 1 ->
  fst (RAND_bytes E (trace w1) 4) = 1 ->
  decode E d1 <> 0 -> decode E d1 <> 0x9068ffff ->
  decode E d2 <> 0 -> decode E d2 <> 0x464fffff ->
  FastRandomContext_ctor E (S fuel) false w =
  Returned {| Rz := decode E d1; Rw := decode E d2 |}
           (emits [EvRAND_bytes 4 1 d1; EvRAND_bytes 4 1 d2] w).
Proof.
  intros d1 w1 d2 H1 H2 Hz0 Hzc Hw0 Hwc.
  assert (Hd1 : length d1 = 4%nat) by apply length_take_bytes.
  assert (Hd2 : length d2 = 4%nat) by apply length_take_bytes.
  unfold FastRandomContext_ctor. unfold bind at 1. unfold uninitialized.
  unfold bind at 1. cbn [do_while]. unfold bind at 1.
  rewrite GetRandBytes_eq. cbv zeta. rewrite H1. cbn [Z.eqb Pos.eqb].
  change (Z.to_nat 4) with 4%nat. fold d1.
  rewrite write_at_whole by (rewrite length_take_bytes; lia).
  replace ((decode E d1 =? 0) || (decode E d1 =? 0x9068ffff)) with false
    by (symmetry; apply orb_false_iff; split; now apply Z.eqb_neq).
  unfold ret at 1. unfold bind at 1. unfold bind at 1.
  rewrite GetRandBytes_eq. cbv zeta. fold w1. rewrite H2. cbn [Z.eqb Pos.eqb].
  change (Z.to_nat 4) with 4%nat. fold d2.
  rewrite write_at_whole by lia.
  replace ((decode E d2 =? 0) || (decode E d2 =? 0x464fffff)) with false
    by (symmetry; apply orb_false_iff; split; now apply Z.eqb_neq).
  unfold ret. f_equal. subst w1. now rewrite emits_emits.
Qed.

(** On [posix3] each lane is seeded with the other lane's constant. *)
Lemma FastRandomContext_seeded_by_two_draws_witness :
  FastRandomContext_ctor posix3 1 false w0 =
  Returned {| Rz := 0x464fffff; Rw := 0x9068ffff |}
           (emits [EvRAND_bytes 4 1 (map u8 [255; 255; 79; 70]);
                   EvRAND_bytes 4 1 (map u8 [255; 255; 104; 144])] w0).
Proof.
  apply (FastRandomContext_seeded_by_two_draws posix3 0 w0);
    try reflexivity; vm_compute; discriminate.
Defined.

(** ** Failures of the OS entropy source *)

(** X15: a failing source ends the process at once.  On a POSIX machine,
    when the device cannot be opened [GetOSRand] aborts after the [open]
    call, without a read; when the first read answers zero, a negative
    number or more than the 32 bytes asked for, it aborts right after
    that read, without another read and without closing the descriptor.
    On Windows it aborts when the provider cannot be acquired, without
    asking it for bytes. *)
Theorem GetOSRand_aborts_on_source_failure
    (E : Env) (fuel : nat) (ent32 : list byte) (w : World) :
  (WIN32 E = false -> open_urandom E (trace w) = -1 ->
   GetOSRand E fuel ent32 w =
   Aborted (emits ([EvOpen (-1)] ++ RandFailure_events) w)) /\
  (WIN32 E = false ->
   let f := open_urandom E (trace w) in
   let n := fst (read E (trace w ++ [EvOpen f]) f 32) in
   let data := take_bytes (snd (read E (trace w ++ [EvOpen f]) f 32)) (Z.to_nat n) in
   f <> -1 -> n <= 0 \/ 32 < n ->
   GetOSRand E (S fuel) ent32 w =
   Aborted (emits ([EvOpen f; EvRead f 32 n data] ++ RandFailure_events) w)) /\
  (WIN32 E = true -> CryptAcquireContextW E (trace w) = 0 ->
   GetOSRand E fuel ent32 w =
   Aborted (emits ([EvCryptAcquireContextW 0] ++ RandFailure_events) w)).
Proof.
  split; [|split].
  - intros HW Ho. unfold GetOSRand. rewrite HW.
    unfold bind at 1. unfold call_open. rewrite Ho.
    unfold bind at 1. cbn [Z.eqb Pos.eqb].
    unfold RandFailure, LogPrintf, log, bind, abort.
    f_equal. unfold emit, emits. cbn. now rewrite <- !app_assoc.
  - intros HW f n data Hf Hn. unfold GetOSRand. rewrite HW.
    unfold bind at 1. unfold call_open. fold f.
    unfold bind at 1.
    replace (f =? -1) with false by (symmetry; now apply Z.eqb_neq).
    cbn [ret]. unfold bind at 1. cbn [do_while]. unfold bind at 1.
    rewrite GetOSRand_body_eq by lia. cbv zeta.
    change (32 - 0) with 32. cbn [trace emit]. fold n. fold data.
    assert (Hov : (n <=? SSIZE_MAX) && (SSIZE_MAX <? n + 0) = false).
    { rewrite Z.add_0_r. destruct (n <=? SSIZE_MAX) eqn:C; [|reflexivity].
      apply Z.leb_le in C. apply Z.ltb_ge. exact C. }
    rewrite Hov.
    destruct (n <=? 0) eqn:C0.
    + f_equal. unfold emit, emits. cbn. now rewrite <- !app_assoc.
    + apply Z.leb_gt in C0.
      replace (n + 0 >? 32) with true
        by (symmetry; rewrite Z.gtb_ltb; apply Z.ltb_lt; lia).
      f_equal. unfold emit, emits. cbn. now rewrite <- !app_assoc.
  - intros HW Ha. unfold GetOSRand. rewrite HW.
    unfold bind at 1. unfold call_CryptAcquireContextW. rewrite Ha.
    unfold bind at 1. cbn [Z.eqb].
    unfold RandFailure, LogPrintf, log, bind, abort.
    f_equal. unfold emit, emits. cbn. now rewrite <- !app_assoc.
Qed.

(** On [posix4] the device cannot be opened; on [posix3] it can, and the
    first read fails. *)
Lemma GetOSRand_aborts_on_source_failure_witness :
  GetOSRand posix4 32 (repeat Byte.x00 32) w0 =
  Aborted (emits ([EvOpen (-1)] ++ RandFailure_events) w0) /\
  GetOSRand posix3 32 (repeat Byte.x00 32) w0 =
  Aborted (emits ([EvOpen 3; EvRead 3 32 (-1) []] ++ RandFailure_events) w0).
Proof.
  split.
  - apply (proj1 (GetOSRand_aborts_on_source_failure posix4 32 (repeat Byte.x00 32) w0));
      reflexivity.
  - apply (proj1 (proj2 (GetOSRand_aborts_on_source_failure
                           posix3 31 (repeat Byte.x00 32) w0))).
    + reflexivity.
    + cbn. discriminate.
    + left. cbn. lia.
Defined.
